(** * otelpy: decorator layer over a tracing SDK (src/otelpy/traces.py)

    A shallow embedding of the naming / attribute derivation, the
    instrumentation gate, the four span and event emitters and the decorator
    factory, with the calls made to the tracing SDK kept as a log of
    operations. *)

From Stdlib Require Import List String Ascii ZArith Bool.
From Stdlib Require DecimalString.
Import ListNotations.

Local Open Scope string_scope.
Local Open Scope list_scope.

(** ** Python values, as far as the module observes them *)

Module Py.

(** A value is observed through [type(v)], [str(v)], [bool(v)] and [==].
    [VObject cls text truth] stands for any other object (a float, a bytes
    object, a list, a user instance): its class name, what [str] returns for
    it and its truth value. *)
Inductive PyValue : Type :=
| VNone
| VBool (b : bool)
| VInt (z : Z)
| VStr (s : string)
| VObject (cls : string) (text : string) (truth : bool).

Definition py_type (v : PyValue) : string :=
  match v with
  | VNone => "NoneType"
  | VBool _ => "bool"
  | VInt _ => "int"
  | VStr _ => "str"
  | VObject cls _ _ => cls
  end.

Definition py_str (v : PyValue) : string :=
  match v with
  | VNone => "None"
  | VBool true => "True"
  | VBool false => "False"
  | VInt z => DecimalString.NilZero.string_of_int (Z.to_int z)
  | VStr s => s
  | VObject _ text _ => text
  end.

Definition truthy (v : PyValue) : bool :=
  match v with
  | VNone => false
  | VBool b => b
  | VInt z => negb (Z.eqb z 0)
  | VStr s => negb (String.eqb s "")
  | VObject _ _ truth => truth
  end.

(** [v == 'lit']: only a [str] with the same characters compares equal to a
    string literal. *)
Definition eq_str_literal (v : PyValue) (lit : string) : bool :=
  match v with
  | VStr s => String.eqb s lit
  | _ => false
  end.

(** The object an [if] tests: a value, or a function object.  A function
    object is true whatever its body computes; the body is kept so that the
    model shows what is never applied. *)
Inductive Tested : Type :=
| TestValue (v : PyValue)
| TestLambda (body : PyValue -> bool).

Definition test_truth (t : Tested) : bool :=
  match t with
  | TestValue v => truthy v
  | TestLambda _ => true
  end.

(** *** Strings *)

Fixpoint contains (c : ascii) (s : string) : bool :=
  match s with
  | EmptyString => false
  | String a rest => Ascii.eqb a c || contains c rest
  end.

(** [s.split(c)] for a one-character separator. *)
Fixpoint split (c : ascii) (s : string) : list string :=
  match s with
  | EmptyString => [EmptyString]
  | String a rest =>
      if Ascii.eqb a c then EmptyString :: split c rest
      else match split c rest with
           | seg :: segs => String a seg :: segs
           | [] => [String a EmptyString]
           end
  end.

Definition lower_char (a : ascii) : ascii :=
  let n := nat_of_ascii a in
  if (65 <=? n)%nat && (n <=? 90)%nat then ascii_of_nat (n + 32) else a.

(** [s.lower()] on ASCII text; other bytes are left as they are. *)
Fixpoint lower (s : string) : string :=
  match s with
  | EmptyString => EmptyString
  | String a rest => String (lower_char a) (lower rest)
  end.

(** *** Insertion-ordered dictionaries with string keys *)

Definition Dict (V : Type) : Type := list (string * V).

Fixpoint dict_get {V} (k : string) (d : Dict V) : option V :=
  match d with
  | [] => None
  | (k', v) :: rest => if String.eqb k' k then Some v else dict_get k rest
  end.

(** [d[k] = v]: an existing key keeps its position, a new key goes last. *)
Fixpoint dict_set {V} (k : string) (v : V) (d : Dict V) : Dict V :=
  match d with
  | [] => [(k, v)]
  | (k', v') :: rest =>
      if String.eqb k' k then (k', v) :: rest else (k', v') :: dict_set k v rest
  end.

Definition dict_keys {V} (d : Dict V) : list string := map fst d.

(** A dictionary holds each key once. *)
Definition dict_wf {V} (d : Dict V) : Prop := NoDup (dict_keys d).

End Py.
Import Py.

(** ** TraceInstruments, exceptions and outcomes *)

Inductive SpanKind : Type :=
| SPAN_KIND_INTERNAL
| SPAN_KIND_CLIENT
| SPAN_KIND_SERVER
| SPAN_KIND_PRODUCER
| SPAN_KIND_CONSUMER.

Definition INSTRUMENTS_EVENT : string := "event".
Definition INSTRUMENTS_TRACE : string := "trace".

(** Exceptions: the [TypeError] of a call that gives one parameter twice, and
    whatever the wrapped code raises. *)
Inductive Exn : Type :=
| MultipleValues (callee : string) (argument : string)
| Raised (what : string).

Inductive Outcome (A : Type) : Type :=
| Return (a : A)
| Raise (e : Exn).
Arguments Return {A} a.
Arguments Raise {A} e.

(** ** The tracing SDK, seen through the calls made to it *)

Module Sdk.

(** One entry per call that reaches the SDK.  A span is named by the position
    of its start in the log. *)
Inductive Op : Type :=
| OpStartSpan (id : nat) (tracer : string) (name : string) (kind : SpanKind)
              (record_exception : bool)
| OpSetAttribute (id : nat) (key : string) (value : PyValue)
| OpAddEvent (id : nat) (name : string) (attributes : Dict PyValue)
| OpRecordException (id : nat) (e : Exn)
| OpEndSpan (id : nat).

(** The process as the module sees it: [os.environ], the values of the
    propagation context, the active span and the SDK log. *)
Record World : Type := mkWorld {
  environ : Dict string;
  context : Dict PyValue;
  current_span : option nat;
  sdk_log : list Op
}.

Definition set_tracing (w : World) (cur : option nat) (log : list Op) : World :=
  mkWorld (environ w) (context w) cur log.

Definition emit (op : Op) (w : World) : World :=
  set_tracing w (current_span w) (sdk_log w ++ [op]).

(** Code that reads and changes the world and returns or raises. *)
Definition M (A : Type) : Type := World -> Outcome A * World.

Definition ret {A} (a : A) : M A := fun w => (Return a, w).
Definition raise {A} (e : Exn) : M A := fun w => (Raise e, w).
Definition bind {A B} (m : M A) (k : A -> M B) : M B :=
  fun w => match m w with
           | (Return a, w') => k a w'
           | (Raise e, w') => (Raise e, w')
           end.

(** [await] of a coroutine, one task at a time: the coroutine runs to its end. *)
Definition await {A} (m : M A) : M A := m.

Definition os_getenv (name : string) (w : World) : option string :=
  dict_get name (environ w).

(** [context_api.get_value(key)]: [None] for a key that is not there. *)
Definition get_value (key : string) (w : World) : PyValue :=
  match dict_get key (context w) with
  | Some v => v
  | None => VNone
  end.

(** The span object a lookup hands out: a span that records, or the SDK's
    one span object that records nothing. *)
Inductive SpanRef : Type :=
| INVALID_SPAN
| RecordingSpan (id : nat).

(** Modelled from the spec: the SDK's [get_current_span], which is not part
    of this repository.  It always answers with a span object and never with
    [None]: the active span when there is one, and otherwise the span that
    records nothing, which is how an event without an active span comes to
    be dropped without an error.  The result is still an optional value, for
    the caller's test [is not None]. *)
Definition get_current_span : M (option SpanRef) :=
  fun w =>
    (Return
       (Some match current_span w with
             | Some id => RecordingSpan id
             | None => INVALID_SPAN
             end),
     w).

(** Modelled from the spec: the SDK's [span.add_event].  On a span that
    records the event is added; on the span that records nothing the call
    does nothing. *)
Definition add_event (sp : SpanRef) (name : string) (attributes : Dict PyValue)
  : M unit :=
  match sp with
  | RecordingSpan id => fun w => (Return tt, emit (OpAddEvent id name attributes) w)
  | INVALID_SPAN => ret tt
  end.

(** Modelled from the spec: the SDK's [span.set_attribute], on the span a
    [with] block was given. *)
Definition set_attribute (sp : nat) (key : string) (value : PyValue) : M unit :=
  fun w => (Return tt, emit (OpSetAttribute sp key value) w).

(** A context manager: what [__enter__] gives, and [__exit__], which is told
    the exception that left the block, if any, and answers whether to
    swallow it. *)
Record ContextManager (A : Type) : Type := mkCM {
  cm_enter : M A;
  cm_exit : option Exn -> World -> bool * World
}.
Arguments mkCM {A} cm_enter cm_exit.
Arguments cm_enter {A} c.
Arguments cm_exit {A} c.

(** Modelled from the spec: the SDK's [tracer.start_as_current_span], which
    is not part of this repository.  Entering starts a span and makes it the
    active one; leaving records the exception on it when recording is on,
    puts the former active span back and ends the span; it never swallows
    the exception. *)
Definition start_as_current_span (tracer name : string) (record_exception : bool)
    (kind : SpanKind) : M (ContextManager nat) :=
  fun w =>
    let id := List.length (sdk_log w) in
    let former := current_span w in
    (Return
       (mkCM
          (fun w1 =>
             (Return id,
              set_tracing w1 (Some id)
                (sdk_log w1 ++ [OpStartSpan id tracer name kind record_exception])))
          (fun exc w2 =>
             let recorded :=
               match exc with
               | Some e => if record_exception then [OpRecordException id e] else []
               | None => []
               end in
             (false, set_tracing w2 former (sdk_log w2 ++ recorded ++ [OpEndSpan id])))),
     w).

End Sdk.
Import Sdk.

Declare Scope py_scope.
Delimit Scope py_scope with py.
Notation "x <- m ;; k" := (bind m (fun x => k))
  (at level 61, m at next level, right associativity) : py_scope.
Notation "m ;;; k" := (bind m (fun _ => k))
  (at level 61, right associativity) : py_scope.
Local Open Scope py_scope.

(** [with cm as x: return block(x)].  The exit runs on both ways out; when it
    swallows the exception the statement ends normally and the function that
    ends with it returns [None]. *)
Definition py_with {A} (mk : M (ContextManager A)) (block : A -> M PyValue)
  : M PyValue :=
  fun w =>
    match mk w with
    | (Raise e, w0) => (Raise e, w0)
    | (Return cm, w0) =>
        match cm_enter cm w0 with
        | (Raise e, w1) => (Raise e, w1)
        | (Return x, w1) =>
            match block x w1 with
            | (Return v, w2) => (Return v, snd (cm_exit cm None w2))
            | (Raise e, w2) =>
                let (swallow, w3) := cm_exit cm (Some e) w2 in
                if swallow then (Return VNone, w3) else (Raise e, w3)
            end
        end
    end.

(** A Python function: the attributes the module reads and what a call does
    (for a coroutine function: what awaiting the call does). *)
Record Func : Type := mkFunc {
  __module__ : string;
  __name__ : string;
  __qualname__ : string;
  iscoroutinefunction : bool;
  body : list PyValue -> Dict PyValue -> M PyValue
}.

(** A call [callee(p1, ..., pn, *args, **kwargs)] whose first parameters are
    given by position: a keyword of the same name as one of them is a
    [TypeError], raised before the callee runs. *)
Definition bind_keywords (callee : string) (params : list string)
    (kwargs : Dict PyValue) : M unit :=
  match find (fun kv => existsb (String.eqb (fst kv)) params) kwargs with
  | Some (k, _) => raise (MultipleValues callee k)
  | None => ret tt
  end.

(** ** TracingOptions.TracingAttributes *)

Definition NO_NAME : string := "span.no_name".

Definition function_qualified_name (func : Func) : string :=
  if contains "."%char (__qualname__ func)
  then hd EmptyString (split "."%char (__qualname__ func))
  else NO_NAME.

(** The guard written in the source, [lambda value: type(value) in {bool, str,
    bytes, int, float}]. *)
Definition scalar_types : list string := ["bool"; "str"; "bytes"; "int"; "float"].

Definition type_guard : PyValue -> bool :=
  fun value => existsb (String.eqb (py_type value)) scalar_types.

(** [function_attributes], on its bound parameters; [user_attributes] is
    [None] or a dictionary. *)
Definition function_attributes (func : Func) (user_attributes : option (Dict PyValue))
    (span_parameters : bool) (kwargs : Dict PyValue) : Dict PyValue :=
  let attributes :=
    [("module", VStr (__module__ func)); ("method", VStr (__name__ func))] in
  let attributes :=
    if span_parameters then
      fold_left
        (fun attrs item =>
           let '(key, value) := item in
           let value :=
             if test_truth (TestLambda type_guard) then VStr (py_str value) else value in
           dict_set key value attrs)
        kwargs attributes
    else attributes in
  match user_attributes with
  | Some ua =>
      fold_left
        (fun attrs key =>
           match dict_get key ua with
           | Some v => dict_set key v attrs
           | None => attrs
           end)
        (dict_keys ua) attributes
  | None => attributes
  end.

(** [TracingOptions.naming_scheme] and [TracingOptions.attributes], at the
    values the class body gives them. *)
Definition naming_scheme (func : Func) : string := function_qualified_name func.

(** ** Emitters *)

Fixpoint for_each {A} (l : list A) (f : A -> M unit) : M unit :=
  match l with
  | [] => ret tt
  | x :: rest => f x ;;; for_each rest f
  end.

Definition _set_attributes (sp : nat) (attributes_dict : Dict PyValue) : M unit :=
  match attributes_dict with
  | [] => ret tt
  | _ =>
      for_each (dict_keys attributes_dict)
        (fun att =>
           match dict_get att attributes_dict with
           | Some v => set_attribute sp att v
           | None => ret tt
           end)
  end.

Definition span_event (func : Func) (name : string) (span_attributes : Dict PyValue)
    (args : list PyValue) (kwargs : Dict PyValue) : M PyValue :=
  current <- get_current_span ;;
  match current with
  | Some sp => add_event sp name span_attributes
  | None => ret tt
  end ;;;
  body func args kwargs.

Definition span (func : Func) (tracer name : string) (span_attributes : Dict PyValue)
    (kind : SpanKind) (record_exception : bool)
    (args : list PyValue) (kwargs : Dict PyValue) : M PyValue :=
  py_with (start_as_current_span tracer name record_exception kind)
    (fun sp => _set_attributes sp span_attributes ;;; body func args kwargs).

Definition async_span_event (func : Func) (name : string)
    (span_attributes : Dict PyValue)
    (args : list PyValue) (kwargs : Dict PyValue) : M PyValue :=
  current <- get_current_span ;;
  match current with
  | Some sp => add_event sp name span_attributes
  | None => ret tt
  end ;;;
  await (body func args kwargs).

Definition async_span (func : Func) (tracer : string) (record_exception : bool)
    (name : string) (span_attributes : Dict PyValue) (kind : SpanKind)
    (args : list PyValue) (kwargs : Dict PyValue) : M PyValue :=
  py_with (start_as_current_span tracer name record_exception kind)
    (fun sp => _set_attributes sp span_attributes ;;; await (body func args kwargs)).

(** ** The gate *)

Definition OTLP_INSTRUMENTATION_DISABLE : string := "OTLP_INSTRUMENTATION_DISABLE".
Definition OVERRIDE_KEY : string := "override_enable_content_tracing".

(** [should_instrumentation]: [True], or else whatever the context holds under
    the override key. *)
Definition should_instrumentation (w : World) : PyValue :=
  let flag :=
    match os_getenv OTLP_INSTRUMENTATION_DISABLE w with
    | Some s => if String.eqb s "" then "false" else s
    | None => "false"
    end in
  if String.eqb (lower flag) "false" then VBool true
  else get_value OVERRIDE_KEY w.

(** ** The decorator *)

Record Options : Type := mkOptions {
  opt_span_name : string;
  opt_record_exception : bool;
  opt_attributes : option (Dict PyValue);
  opt_type : PyValue;
  opt_kind : SpanKind;
  opt_span_parameters : bool
}.

Definition default_options : Options :=
  mkOptions "" true None (VStr INSTRUMENTS_TRACE) SPAN_KIND_INTERNAL false.

(** [span_name or TracingOptions.naming_scheme(func)]. *)
Definition wrapper_name (o : Options) (func : Func) : string :=
  if String.eqb (opt_span_name o) "" then naming_scheme func else opt_span_name o.

(** The parameters each helper takes by position, in the order of its
    signature. *)
Definition function_attributes_params : list string :=
  ["func"; "user_attributes"; "span_parameters"].
Definition span_event_params : list string := ["func"; "name"; "span_attributes"].
Definition span_params : list string :=
  ["func"; "tracer"; "name"; "span_attributes"; "kind"; "record_exception"].
Definition async_span_params : list string :=
  ["func"; "tracer"; "record_exception"; "name"; "span_attributes"; "kind"].

(** [TracingOptions.attributes(func, attributes, span_parameters, **kwargs)]. *)
Definition wrapper_attributes (o : Options) (func : Func) (kwargs : Dict PyValue)
  : M (Dict PyValue) :=
  bind_keywords "function_attributes" function_attributes_params kwargs ;;;
  ret (function_attributes func (opt_attributes o) (opt_span_parameters o) kwargs).

Definition wrap_with_span_sync (o : Options) (func : Func) (tracer : string)
    (args : list PyValue) (kwargs : Dict PyValue) : M PyValue :=
  let name := wrapper_name o func in
  span_attributes <- wrapper_attributes o func kwargs ;;
  if eq_str_literal (opt_type o) INSTRUMENTS_EVENT then
    bind_keywords "span_event" span_event_params kwargs ;;;
    span_event func name span_attributes args kwargs
  else
    bind_keywords "span" span_params kwargs ;;;
    span func tracer name span_attributes (opt_kind o) (opt_record_exception o)
      args kwargs.

Definition wrap_with_span_async (o : Options) (func : Func) (tracer : string)
    (args : list PyValue) (kwargs : Dict PyValue) : M PyValue :=
  let name := wrapper_name o func in
  span_attributes <- wrapper_attributes o func kwargs ;;
  if eq_str_literal (opt_type o) INSTRUMENTS_EVENT then
    await (bind_keywords "async_span_event" span_event_params kwargs ;;;
           async_span_event func name span_attributes args kwargs)
  else
    await (bind_keywords "async_span" async_span_params kwargs ;;;
           async_span func tracer (opt_record_exception o) name span_attributes
             (opt_kind o) args kwargs).

(** What the decorator can hand back: the function it was given, or one of
    the two wrappers closed over the options and the tracer. *)
Inductive Callable : Type :=
| Original (func : Func)
| WrapSync (o : Options) (func : Func) (tracer : string)
| WrapAsync (o : Options) (func : Func) (tracer : string).

(** Calling it (and awaiting the call, for a coroutine function). *)
Definition call (c : Callable) (args : list PyValue) (kwargs : Dict PyValue)
  : M PyValue :=
  match c with
  | Original func => body func args kwargs
  | WrapSync o func tracer => wrap_with_span_sync o func tracer args kwargs
  | WrapAsync o func tracer => wrap_with_span_async o func tracer args kwargs
  end.

Definition span_decorator (o : Options) (func : Func) : Callable :=
  let tracer := __module__ func in
  if iscoroutinefunction func then WrapAsync o func tracer
  else WrapSync o func tracer.

(** A decorator still waiting for its function: [lambda func: func] or
    [span_decorator]. *)
Inductive Decorator : Type :=
| IdentityDecorator
| SpanDecorator (o : Options).

Definition apply_decorator (d : Decorator) (func : Func) : Callable :=
  match d with
  | IdentityDecorator => Original func
  | SpanDecorator o => span_decorator o func
  end.

Inductive Decorated : Type :=
| IsCallable (c : Callable)
| IsDecorator (d : Decorator).

(** [instrumented_trace(_func, **options)], run in the world [w]. *)
Definition instrumented_trace (_func : option Func) (o : Options) (w : World)
  : Decorated :=
  if negb (truthy (should_instrumentation w)) then
    match _func with
    | Some f => IsCallable (Original f)
    | None => IsDecorator IdentityDecorator
    end
  else
    match _func with
    | None => IsDecorator (SpanDecorator o)
    | Some f => IsCallable (span_decorator o f)
    end.

(** ** Notions the statements use *)

(** Where a key goes when it is set: nowhere new if it is there already, to
    the end otherwise. *)
Definition add_key (keys : list string) (k : string) : list string :=
  if existsb (String.eqb k) keys then keys else keys ++ [k].

(** The two loops of [function_attributes], each on its own. *)
Definition fold_kwargs (kwargs attributes : Dict PyValue) : Dict PyValue :=
  fold_left
    (fun attrs item =>
       let '(key, value) := item in
       let value :=
         if test_truth (TestLambda type_guard) then VStr (py_str value) else value in
       dict_set key value attrs)
    kwargs attributes.

Definition fold_user (ua : Dict PyValue) (keys : list string)
    (attributes : Dict PyValue) : Dict PyValue :=
  fold_left
    (fun attrs key =>
       match dict_get key ua with
       | Some v => dict_set key v attrs
       | None => attrs
       end)
    keys attributes.

(** The SDK calls [_set_attributes] makes for a dictionary. *)
Definition attribute_ops (sp : nat) (d : Dict PyValue) : list Op :=
  flat_map
    (fun att =>
       match dict_get att d with
       | Some v => [OpSetAttribute sp att v]
       | None => []
       end)
    (dict_keys d).

(** Some keyword has the name of a parameter given by position. *)
Definition clashes (params : list string) (kwargs : Dict PyValue) : bool :=
  existsb (fun kv => existsb (String.eqb (fst kv)) params) kwargs.

(** The options with another [type]. *)
Definition with_type (o : Options) (t : PyValue) : Options :=
  mkOptions (opt_span_name o) (opt_record_exception o) (opt_attributes o) t
    (opt_kind o) (opt_span_parameters o).

(** The same tracing state under another environment and context. *)
Definition with_ambient (env : Dict string) (ctx : Dict PyValue) (w : World) : World :=
  mkWorld env ctx (current_span w) (sdk_log w).

(** Code that neither reads nor writes the environment and the context: it
    does the same under any of them. *)
Definition ambient_blind {A} (m : M A) : Prop :=
  forall env ctx w,
    m (with_ambient env ctx w) = (fst (m w), with_ambient env ctx (snd (m w))).

(** ** Functions and worlds to run the definitions on *)

Definition returns_none : list PyValue -> Dict PyValue -> M PyValue :=
  fun _ _ => ret VNone.

Definition top_level_function : Func :=
  mkFunc "app.jobs" "refresh" "refresh" false returns_none.

Definition method_function : Func :=
  mkFunc "app.jobs" "run" "Worker.run" false returns_none.

Definition nested_function : Func :=
  mkFunc "app.jobs" "inner" "make.<locals>.inner" false returns_none.

Definition raising_function : Func :=
  mkFunc "app.jobs" "explode" "explode" false
    (fun _ _ => raise (Raised "ValueError")).

Definition echo_name : Func :=
  mkFunc "app.greet" "greet" "greet" false
    (fun _ kwargs =>
       match dict_get "name" kwargs with
       | Some v => ret v
       | None => raise (Raised "TypeError: missing argument")
       end).

Definition echo_name_async : Func :=
  mkFunc "app.greet" "greet" "greet" true (body echo_name).

Definition echo_who : Func :=
  mkFunc "app.greet" "hello" "hello" false
    (fun _ kwargs =>
       match dict_get "who" kwargs with
       | Some v => ret v
       | None => raise (Raised "TypeError: missing argument")
       end).

Definition echo_who_async : Func :=
  mkFunc "app.greet" "hello" "hello" true (body echo_who).

Definition sample_kwargs : Dict PyValue := [("a", VInt 1); ("b", VStr "x")].

Definition mixed_kwargs : Dict PyValue :=
  [("n", VInt (-12)); ("items", VObject "list" "[1, 2]" true); ("owner", VNone)].

Definition world_of (env : Dict string) (ctx : Dict PyValue) : World :=
  mkWorld env ctx None [].

Definition enabled_world : World := world_of [] [].

Definition disabled_world : World :=
  world_of [(OTLP_INSTRUMENTATION_DISABLE, "true")] [].

Definition traced_refresh_log : list Op :=
  [OpStartSpan 0 "app.jobs" "span.no_name" SPAN_KIND_INTERNAL true;
   OpSetAttribute 0 "module" (VStr "app.jobs");
   OpSetAttribute 0 "method" (VStr "refresh");
   OpEndSpan 0].

(** ** Instrumentation: the provider set-up *)

Module Instrumentation.

(** What a keyword of the constructor can hold: a value, or a dictionary
    (the resource attributes). *)
Inductive Arg : Type :=
| ArgValue (v : PyValue)
| ArgDict (d : Dict PyValue).

Definition arg_truthy (a : Arg) : bool :=
  match a with
  | ArgValue v => truthy v
  | ArgDict [] => false
  | ArgDict (_ :: _) => true
  end.

(** What the constructor can raise: a missing setting, [self] given as a
    keyword, or whatever an SDK constructor raises for a setting it does
    not accept. *)
Inductive Error : Type :=
| KeyError (key : string)
| MultipleValuesSelf
| SdkError (what : string).

(** The objects of the SDK: a resource, an exporter (as wrapped into a
    [BatchSpanProcessor]), and a provider with the processors added to it. *)
Record Resource : Type := mkResource {
  attributes : Dict PyValue
}.

Record OTLPSpanExporter : Type := mkExporter {
  endpoint : string;
  insecure : bool
}.

Record TracerProvider : Type := mkProvider {
  resource : Resource;
  span_processors : list OTLPSpanExporter
}.

(** Modelled from the spec: the SDK's constructors, which are not part of
    this repository, taken as they are: [Resource.create(attributes=...)]
    and [OTLPSpanExporter(endpoint=..., insecure=...)] each build their
    object or raise, and which settings they accept is theirs to say. *)
Record Sdk : Type := mkSdk {
  Resource_create : Arg -> Error + Resource;
  OTLPSpanExporter_new : Arg -> bool -> Error + OTLPSpanExporter
}.

(** Modelled from the spec: an SDK that accepts what the spec names, a
    mapping of resource attributes and an address, and refuses the rest. *)
Definition mapping_and_address_sdk : Sdk :=
  mkSdk
    (fun a =>
       match a with
       | ArgDict d => inr (mkResource d)
       | ArgValue _ => inl (SdkError "Resource.create")
       end)
    (fun a insecure =>
       match a with
       | ArgValue (VStr address) => inr (mkExporter address insecure)
       | _ => inl (SdkError "OTLPSpanExporter")
       end).

(** Modelled from the spec: the SDK's [TracerProvider.add_span_processor]. *)
Definition add_span_processor (p : TracerProvider) (e : OTLPSpanExporter)
  : TracerProvider :=
  mkProvider (resource p) (span_processors p ++ [e]).

(** The instance: its three settings and, once [setting_otlp] has run, its
    provider. *)
Record Self : Type := mkSelf {
  grpc : Arg;
  resource_attributes_dict : Arg;
  traces_exporter_url : Arg;
  tracer : option TracerProvider
}.

(** The providers handed to [trace.set_tracer_provider], oldest first. *)
Definition Registered : Type := list TracerProvider.

Definition set_tracer (self : Self) (provider : TracerProvider) : Self :=
  mkSelf (grpc self) (resource_attributes_dict self) (traces_exporter_url self)
    (Some provider).

Definition setting_otlp (sdk : Sdk) (self : Self) (registered : Registered)
  : (Error + Self) * Registered :=
  match Resource_create sdk (resource_attributes_dict self) with
  | inl e => (inl e, registered)
  | inr res =>
      let provider := mkProvider res [] in
      if arg_truthy (grpc self) then
        match OTLPSpanExporter_new sdk (traces_exporter_url self) true with
        | inl e => (inl e, registered)
        | inr exporter =>
            let provider := add_span_processor provider exporter in
            (inr (set_tracer self provider), registered ++ [provider])
        end
      else (inr (set_tracer self provider), registered ++ [provider])
  end.

(** The constructor, called with keywords only. *)
Definition __init__ (sdk : Sdk) (kwargs : Dict Arg) (registered : Registered)
  : (Error + Self) * Registered :=
  match dict_get "self" kwargs with
  | Some _ => (inl MultipleValuesSelf, registered)
  | None =>
      match dict_get "grpc" kwargs with
      | None => (inl (KeyError "grpc"), registered)
      | Some g =>
          match dict_get "resource_attributes_dict" kwargs with
          | None => (inl (KeyError "resource_attributes_dict"), registered)
          | Some r =>
              match dict_get "traces_exporter_url" kwargs with
              | None => (inl (KeyError "traces_exporter_url"), registered)
              | Some u => setting_otlp sdk (mkSelf g r u None) registered
              end
          end
      end
  end.

Definition get_provider (self : Self) : option TracerProvider := tracer self.

End Instrumentation.

(** ** Further notions the statements use *)

(** The wrapper refuses the keywords: one of them has the name of a
    parameter of [function_attributes] or of the emitter the [type] selects. *)
Definition rejects (o : Options) (kwargs : Dict PyValue) : bool :=
  clashes function_attributes_params kwargs ||
  (if eq_str_literal (opt_type o) INSTRUMENTS_EVENT
   then clashes span_event_params kwargs
   else clashes span_params kwargs).


(** A function that does nothing but call [inner] with its own arguments. *)
Definition forwards_to (inner : Callable) : Func :=
  mkFunc "app.outer" "outer" "outer" false (fun args kwargs => call inner args kwargs).

(** Every run of [m] ends in a world related by [R] to the one it started in. *)
Definition respects {A} (R : World -> World -> Prop) (m : M A) : Prop :=
  forall w, R w (snd (m w)).

(** The environment and the context are as they were. *)
Definition same_ambient (w w' : World) : Prop :=
  environ w' = environ w /\ context w' = context w.

(** The active span is as it was. *)
Definition same_active_span (w w' : World) : Prop :=
  current_span w' = current_span w.

(** A function that leaves a span of its own active. *)
Definition leaves_span_active : Func :=
  mkFunc "app.jobs" "leak" "leak" false
    (fun _ _ w => (Return VNone, set_tracing w (Some 77) (sdk_log w))).

Definition full_settings : Dict Instrumentation.Arg :=
  [("grpc", Instrumentation.ArgValue (VBool true));
   ("resource_attributes_dict",
    Instrumentation.ArgDict [("service.name", VStr "billing")]);
   ("traces_exporter_url", Instrumentation.ArgValue (VStr "collector:4317"));
   ("comment", Instrumentation.ArgValue VNone)].

(** * Properties *)

(** ** Strings and dictionaries *)

Section StringFacts.

Variable c : ascii.

Lemma split_nonempty (s : string) : split c s <> [].
Proof.
  destruct s as [|a rest]; simpl; [discriminate|].
  destruct (Ascii.eqb a c); [discriminate|].
  destruct (split c rest); discriminate.
Qed.

Lemma contains_append (pre post : string) :
  contains c (pre ++ post) = contains c pre || contains c post.
Proof.
  induction pre as [|a pre IH]; simpl; [reflexivity|].
  rewrite IH. now rewrite orb_assoc.
Qed.

(** The first segment is what stands before the first separator. *)
Lemma split_first_segment (pre post : string) :
  contains c pre = false ->
  split c (pre ++ String c post) = pre :: split c post.
Proof.
  induction pre as [|a pre IH]; simpl; intros Hpre.
  - now rewrite Ascii.eqb_refl.
  - apply orb_false_iff in Hpre as [Ha Hpre].
    rewrite Ha, (IH Hpre). reflexivity.
Qed.

(** A string with a separator splits at its first one. *)
Lemma contains_decompose (s : string) :
  contains c s = true ->
  exists pre post, s = (pre ++ String c post)%string /\ contains c pre = false.
Proof.
  induction s as [|a s IH]; simpl; [discriminate|].
  destruct (Ascii.eqb a c) eqn:Ha; simpl.
  - intros _. apply Ascii.eqb_eq in Ha; subst a.
    exists EmptyString, s. split; reflexivity.
  - intros Hs. destruct (IH Hs) as (pre & post & -> & Hpre).
    exists (String a pre), post. split; [reflexivity|].
    simpl. now rewrite Ha.
Qed.

End StringFacts.

Section DictFacts.

Context {V : Type}.

Lemma dict_get_set (k k' : string) (v : V) (d : Dict V) :
  dict_get k (dict_set k' v d) = if String.eqb k' k then Some v else dict_get k d.
Proof.
  induction d as [|[k0 v0] d IH]; simpl.
  - reflexivity.
  - destruct (String.eqb k0 k') eqn:E0; simpl.
    + apply String.eqb_eq in E0; subst k0.
      destruct (String.eqb k' k); reflexivity.
    + rewrite IH. destruct (String.eqb k0 k) eqn:E1; [|reflexivity].
      apply String.eqb_eq in E1; subst k0.
      destruct (String.eqb k' k) eqn:E2; [|reflexivity].
      apply String.eqb_eq in E2; subst k'.
      rewrite String.eqb_refl in E0. discriminate.
Qed.

Lemma dict_get_none_iff (k : string) (d : Dict V) :
  dict_get k d = None <-> ~ In k (dict_keys d).
Proof.
  induction d as [|[k0 v0] d IH]; simpl.
  - tauto.
  - destruct (String.eqb k0 k) eqn:E.
    + apply String.eqb_eq in E. split; [discriminate|]. intros H; exfalso; auto.
    + apply String.eqb_neq in E. rewrite IH. tauto.
Qed.

Lemma dict_keys_set (k : string) (v : V) (d : Dict V) :
  dict_keys (dict_set k v d) = add_key (dict_keys d) k.
Proof.
  unfold add_key. induction d as [|[k0 v0] d IH]; simpl; [reflexivity|].
  rewrite (String.eqb_sym k k0).
  destruct (String.eqb k0 k); simpl; [reflexivity|].
  rewrite IH. destruct (existsb (String.eqb k) (dict_keys d)); reflexivity.
Qed.

End DictFacts.

(** ** Name derivation *)

Example name_of_top_level : naming_scheme top_level_function = "span.no_name".
Proof. reflexivity. Qed.

Example name_of_method : naming_scheme method_function = "Worker".
Proof. reflexivity. Qed.

Example name_of_nested : naming_scheme nested_function = "make".
Proof. reflexivity. Qed.

Example explicit_name_wins :
  wrapper_name (mkOptions "load" true None (VStr "trace") SPAN_KIND_CLIENT false)
    method_function = "load".
Proof. reflexivity. Qed.

(** C1. Without an explicit [span_name] the name is the first
    dot-separated segment of the qualified name when that name has a dot,
    and the fallback token ["span.no_name"] when it has none. *)
Theorem default_name_first_segment_or_fallback (o : Options) (func : Func) :
  opt_span_name o = "" ->
  (contains "." (__qualname__ func) = true ->
   exists pre post,
     __qualname__ func = (pre ++ String "." post)%string /\
     contains "." pre = false /\
     wrapper_name o func = pre) /\
  (contains "." (__qualname__ func) = false ->
   wrapper_name o func = "span.no_name").
Proof.
  intros Hname. unfold wrapper_name, naming_scheme, function_qualified_name.
  rewrite Hname; simpl String.eqb; cbv iota.
  split; intros Hdot; rewrite Hdot.
  - destruct (contains_decompose "." _ Hdot) as (pre & post & Hq & Hpre).
    exists pre, post. repeat split; trivial.
    rewrite Hq, (split_first_segment "." pre post Hpre). reflexivity.
  - reflexivity.
Qed.

Lemma default_name_first_segment_or_fallback_witness :
  wrapper_name default_options top_level_function = "span.no_name" /\
  exists pre post,
    __qualname__ method_function = (pre ++ String "." post)%string /\
    contains "." pre = false /\
    wrapper_name default_options method_function = pre.
Proof.
  split.
  - apply (default_name_first_segment_or_fallback default_options top_level_function);
      reflexivity.
  - apply (default_name_first_segment_or_fallback default_options method_function);
      reflexivity.
Defined.

(** ** Attribute derivation *)

Section AttributeFacts.

Lemma fold_kwargs_get (k : string) (kwargs : Dict PyValue) :
  dict_wf kwargs ->
  forall attributes,
    dict_get k (fold_kwargs kwargs attributes) =
    match dict_get k kwargs with
    | Some v => Some (VStr (py_str v))
    | None => dict_get k attributes
    end.
Proof.
  unfold dict_wf, fold_kwargs.
  induction kwargs as [|[k1 v1] kwargs IH]; simpl; intros Hwf attributes.
  - reflexivity.
  - inversion Hwf as [|? ? Hnotin Hwf']; subst.
    rewrite (IH Hwf'), dict_get_set.
    destruct (String.eqb k1 k) eqn:E; [|reflexivity].
    apply String.eqb_eq in E; subst k1.
    apply dict_get_none_iff in Hnotin. now rewrite Hnotin.
Qed.

Lemma fold_kwargs_keys (kwargs : Dict PyValue) :
  forall attributes,
    dict_keys (fold_kwargs kwargs attributes) =
    fold_left add_key (dict_keys kwargs) (dict_keys attributes).
Proof.
  unfold fold_kwargs.
  induction kwargs as [|[k1 v1] kwargs IH]; simpl; intros attributes.
  - reflexivity.
  - now rewrite IH, dict_keys_set.
Qed.

Lemma fold_user_get (k : string) (ua : Dict PyValue) (keys : list string) :
  forall attributes,
    dict_get k (fold_user ua keys attributes) =
    match dict_get k ua with
    | Some v => if existsb (String.eqb k) keys then Some v else dict_get k attributes
    | None => dict_get k attributes
    end.
Proof.
  unfold fold_user.
  induction keys as [|k1 keys IH]; simpl; intros attributes.
  - destruct (dict_get k ua); reflexivity.
  - rewrite IH. rewrite (String.eqb_sym k k1).
    destruct (dict_get k ua) as [v|] eqn:Hk.
    + destruct (existsb (String.eqb k) keys).
      * now rewrite orb_true_r.
      * rewrite orb_false_r.
        destruct (String.eqb k1 k) eqn:E.
        -- apply String.eqb_eq in E; subst k1. now rewrite Hk, dict_get_set, String.eqb_refl.
        -- destruct (dict_get k1 ua); [|reflexivity].
           now rewrite dict_get_set, E.
    + destruct (dict_get k1 ua) eqn:Hk1; [|reflexivity].
      rewrite dict_get_set.
      destruct (String.eqb k1 k) eqn:E; [|reflexivity].
      apply String.eqb_eq in E; subst k1. congruence.
Qed.

Lemma existsb_keys_get {V} (k : string) (d : Dict V) :
  existsb (String.eqb k) (dict_keys d) =
  match dict_get k d with Some _ => true | None => false end.
Proof.
  induction d as [|[k0 v0] d IH]; simpl; [reflexivity|].
  rewrite (String.eqb_sym k k0). destruct (String.eqb k0 k); simpl; auto.
Qed.

Lemma fold_user_keys (ua : Dict PyValue) (keys : list string) :
  incl keys (dict_keys ua) ->
  forall attributes,
    dict_keys (fold_user ua keys attributes) =
    fold_left add_key keys (dict_keys attributes).
Proof.
  unfold fold_user.
  induction keys as [|k1 keys IH]; simpl; intros Hincl attributes.
  - reflexivity.
  - assert (Hin : In k1 (dict_keys ua)) by (apply Hincl; now left).
    destruct (dict_get k1 ua) as [v|] eqn:Hk1.
    + rewrite IH by (intros x Hx; apply Hincl; now right).
      now rewrite dict_keys_set.
    + apply dict_get_none_iff in Hk1. contradiction.
Qed.

(** Looking a key up in the derived attributes. *)
Lemma function_attributes_get (func : Func) (user_attributes : option (Dict PyValue))
    (span_parameters : bool) (kwargs : Dict PyValue) (k : string) :
  dict_wf kwargs ->
  dict_get k (function_attributes func user_attributes span_parameters kwargs) =
  match match user_attributes with Some ua => dict_get k ua | None => None end with
  | Some v => Some v
  | None =>
      match (if span_parameters then dict_get k kwargs else None) with
      | Some v => Some (VStr (py_str v))
      | None =>
          if String.eqb "module" k then Some (VStr (__module__ func))
          else if String.eqb "method" k then Some (VStr (__name__ func))
          else None
      end
  end.
Proof.
  intros Hwf. unfold function_attributes.
  set (meta := [("module", VStr (__module__ func)); ("method", VStr (__name__ func))]).
  fold (fold_kwargs kwargs meta).
  assert (Hmid :
    dict_get k (if span_parameters then fold_kwargs kwargs meta else meta) =
    match (if span_parameters then dict_get k kwargs else None) with
    | Some v => Some (VStr (py_str v))
    | None =>
        if String.eqb "module" k then Some (VStr (__module__ func))
        else if String.eqb "method" k then Some (VStr (__name__ func))
        else None
    end).
  { destruct span_parameters.
    - rewrite (fold_kwargs_get k kwargs Hwf). reflexivity.
    - reflexivity. }
  destruct user_attributes as [ua|]; [|exact Hmid].
  fold (fold_user ua (dict_keys ua)
          (if span_parameters then fold_kwargs kwargs meta else meta)).
  rewrite fold_user_get, existsb_keys_get, Hmid.
  destruct (dict_get k ua); reflexivity.
Qed.

End AttributeFacts.

Lemma function_attributes_keys (func : Func) (user_attributes : option (Dict PyValue))
    (span_parameters : bool) (kwargs : Dict PyValue) :
  dict_keys (function_attributes func user_attributes span_parameters kwargs) =
  fold_left add_key
    ((if span_parameters then dict_keys kwargs else []) ++
     match user_attributes with Some ua => dict_keys ua | None => [] end)
    ["module"; "method"].
Proof.
  unfold function_attributes.
  set (meta := [("module", VStr (__module__ func)); ("method", VStr (__name__ func))]).
  fold (fold_kwargs kwargs meta).
  rewrite fold_left_app.
  assert (Hmid :
    dict_keys (if span_parameters then fold_kwargs kwargs meta else meta) =
    fold_left add_key (if span_parameters then dict_keys kwargs else [])
      ["module"; "method"]).
  { destruct span_parameters; [apply fold_kwargs_keys | reflexivity]. }
  destruct user_attributes as [ua|]; [|exact Hmid].
  fold (fold_user ua (dict_keys ua)
          (if span_parameters then fold_kwargs kwargs meta else meta)).
  rewrite fold_user_keys by apply incl_refl.
  now rewrite Hmid.
Qed.

Example attributes_with_parameters :
  function_attributes method_function None true sample_kwargs =
  [("module", VStr "app.jobs"); ("method", VStr "run");
   ("a", VStr "1"); ("b", VStr "x")].
Proof. reflexivity. Qed.

Example attributes_user_overrides :
  function_attributes method_function (Some [("b", VStr "y")]) true sample_kwargs =
  [("module", VStr "app.jobs"); ("method", VStr "run");
   ("a", VStr "1"); ("b", VStr "y")].
Proof. reflexivity. Qed.

Example attributes_without_parameters :
  function_attributes method_function (Some [("method", VInt 7)]) false sample_kwargs =
  [("module", VStr "app.jobs"); ("method", VInt 7)].
Proof. reflexivity. Qed.

Example attributes_argument_overrides_metadata :
  function_attributes method_function None true [("module", VBool true)] =
  [("module", VStr "True"); ("method", VStr "run")].
Proof. reflexivity. Qed.

(** C2. The attribute set holds the metadata keys ["module"] and
    ["method"] first, then (when [span_parameters] is true) the keyword
    arguments in their order, each as its string form, then the user's
    attributes; for a key given by several sources the user's value wins over
    a keyword argument's, which wins over the metadata. *)
Theorem attributes_order_and_precedence (func : Func)
    (user_attributes : option (Dict PyValue)) (span_parameters : bool)
    (kwargs : Dict PyValue) :
  dict_wf kwargs ->
  let result := function_attributes func user_attributes span_parameters kwargs in
  dict_keys result =
    fold_left add_key
      ((if span_parameters then dict_keys kwargs else []) ++
       match user_attributes with Some ua => dict_keys ua | None => [] end)
      ["module"; "method"] /\
  forall k,
    dict_get k result =
    match match user_attributes with Some ua => dict_get k ua | None => None end with
    | Some v => Some v
    | None =>
        match (if span_parameters then dict_get k kwargs else None) with
        | Some v => Some (VStr (py_str v))
        | None =>
            if String.eqb "module" k then Some (VStr (__module__ func))
            else if String.eqb "method" k then Some (VStr (__name__ func))
            else None
        end
    end.
Proof.
  intros Hwf result. split.
  - apply function_attributes_keys.
  - intros k. now apply function_attributes_get.
Qed.

Lemma sample_kwargs_wf : dict_wf sample_kwargs.
Proof.
  unfold dict_wf, sample_kwargs; simpl.
  repeat constructor; simpl; intuition discriminate.
Defined.

Lemma attributes_order_and_precedence_witness :
  dict_wf sample_kwargs /\
  dict_keys
    (function_attributes method_function (Some [("b", VStr "y")]) true sample_kwargs) =
    ["module"; "method"; "a"; "b"] /\
  dict_get "b"
    (function_attributes method_function (Some [("b", VStr "y")]) true sample_kwargs) =
    Some (VStr "y").
Proof.
  pose proof (attributes_order_and_precedence method_function
                (Some [("b", VStr "y")]) true sample_kwargs sample_kwargs_wf) as [Hk Hg].
  split; [exact sample_kwargs_wf|]. split.
  - exact Hk.
  - exact (Hg "b").
Defined.

Example guard_rejects_none : type_guard VNone = false.
Proof. reflexivity. Qed.

Example guard_rejects_list : type_guard (VObject "list" "[1, 2]" true) = false.
Proof. reflexivity. Qed.

Example guard_accepts_int : type_guard (VInt 3) = true.
Proof. reflexivity. Qed.

(** C3. With [span_parameters] true every keyword argument is stored
    as its string form, whatever its type: the guard is a function object,
    which is true, and is never applied to the value. *)
Theorem coercion_is_unconditional (func : Func)
    (user_attributes : option (Dict PyValue)) (kwargs : Dict PyValue)
    (key : string) (value : PyValue) :
  dict_wf kwargs ->
  dict_get key kwargs = Some value ->
  match user_attributes with Some ua => dict_get key ua | None => None end = None ->
  test_truth (TestLambda type_guard) = true /\
  dict_get key (function_attributes func user_attributes true kwargs) =
  Some (VStr (py_str value)).
Proof.
  intros Hwf Hkey Hua. split; [reflexivity|].
  rewrite (function_attributes_get func user_attributes true kwargs key Hwf).
  now rewrite Hua, Hkey.
Qed.

Lemma mixed_kwargs_wf : dict_wf mixed_kwargs.
Proof.
  unfold dict_wf, mixed_kwargs; simpl.
  repeat constructor; simpl; intuition discriminate.
Defined.

Lemma coercion_is_unconditional_witness :
  type_guard (VObject "list" "[1, 2]" true) = false /\
  dict_get "items" (function_attributes top_level_function None true mixed_kwargs) =
  Some (VStr "[1, 2]").
Proof.
  split; [reflexivity|].
  apply (coercion_is_unconditional top_level_function None mixed_kwargs "items"
           (VObject "list" "[1, 2]" true) mixed_kwargs_wf eq_refl eq_refl).
Defined.

(** ** The gate *)

Example gate_unset : should_instrumentation enabled_world = VBool true.
Proof. reflexivity. Qed.

Example gate_false_any_case :
  should_instrumentation (world_of [(OTLP_INSTRUMENTATION_DISABLE, "FaLsE")] []) =
  VBool true.
Proof. reflexivity. Qed.

Example gate_empty_value :
  should_instrumentation (world_of [(OTLP_INSTRUMENTATION_DISABLE, "")] []) =
  VBool true.
Proof. reflexivity. Qed.

Example gate_disabled : should_instrumentation disabled_world = VNone.
Proof. reflexivity. Qed.

Example gate_disabled_any_value :
  should_instrumentation (world_of [(OTLP_INSTRUMENTATION_DISABLE, "0")] []) = VNone.
Proof. reflexivity. Qed.

Example gate_override :
  should_instrumentation
    (world_of [(OTLP_INSTRUMENTATION_DISABLE, "true")] [(OVERRIDE_KEY, VInt 1)]) =
  VInt 1.
Proof. reflexivity. Qed.

Example gate_falsy_override :
  truthy (should_instrumentation
            (world_of [(OTLP_INSTRUMENTATION_DISABLE, "true")]
               [(OVERRIDE_KEY, VStr "")])) = false.
Proof. reflexivity. Qed.

Lemma get_value_falsy (key : string) (w : World) :
  truthy (get_value key w) = false <->
  dict_get key (context w) = None \/
  exists v, dict_get key (context w) = Some v /\ truthy v = false.
Proof.
  unfold get_value. destruct (dict_get key (context w)) as [v|]; simpl.
  - split.
    + intros H. right. now exists v.
    + intros [H|(v' & H & Hv)]; [discriminate|]. now inversion H; subst.
  - split; auto.
Qed.

(** When the gate answers no. *)
Lemma gate_off_iff (w : World) :
  truthy (should_instrumentation w) = false <->
  exists v,
    os_getenv OTLP_INSTRUMENTATION_DISABLE w = Some v /\
    v <> "" /\ lower v <> "false" /\
    truthy (get_value OVERRIDE_KEY w) = false.
Proof.
  unfold should_instrumentation.
  destruct (os_getenv OTLP_INSTRUMENTATION_DISABLE w) as [v|].
  - destruct (String.eqb v "") eqn:Ev.
    + apply String.eqb_eq in Ev; subst v. simpl. split; [discriminate|].
      intros (v & Hv & Hne & _). inversion Hv; subst. now contradiction Hne.
    + apply String.eqb_neq in Ev.
      destruct (String.eqb (lower v) "false") eqn:El.
      * apply String.eqb_eq in El. simpl. split; [discriminate|].
        intros (v' & Hv & _ & Hl & _). inversion Hv; subst. contradiction.
      * apply String.eqb_neq in El. split.
        -- intros H. exists v. auto.
        -- intros (v' & Hv & _ & _ & H). exact H.
  - simpl. split; [discriminate|]. intros (v & Hv & _). discriminate.
Qed.

(** C4. The gate answers "disabled" only when the variable
    [OTLP_INSTRUMENTATION_DISABLE] is set to a value that, lower-cased, is
    not ["false"], and the context holds nothing true under
    [override_enable_content_tracing]; it answers "enabled" when the variable
    is unset, and whenever the override is true. *)
Theorem gate_disabled_only_by_flag_without_override (w : World) :
  (truthy (should_instrumentation w) = false ->
   exists v,
     os_getenv OTLP_INSTRUMENTATION_DISABLE w = Some v /\
     lower v <> "false" /\
     (dict_get OVERRIDE_KEY (context w) = None \/
      exists o, dict_get OVERRIDE_KEY (context w) = Some o /\ truthy o = false)) /\
  (os_getenv OTLP_INSTRUMENTATION_DISABLE w = None ->
   truthy (should_instrumentation w) = true) /\
  (truthy (get_value OVERRIDE_KEY w) = true ->
   truthy (should_instrumentation w) = true) /\
  (forall v,
     os_getenv OTLP_INSTRUMENTATION_DISABLE w = Some v ->
     v <> "" -> lower v <> "false" ->
     truthy (get_value OVERRIDE_KEY w) = false ->
     truthy (should_instrumentation w) = false).
Proof.
  repeat split.
  - intros Hoff. apply gate_off_iff in Hoff as (v & Hv & _ & Hl & Ho).
    exists v. repeat split; trivial. now apply get_value_falsy.
  - intros Hunset. apply not_false_is_true. intros Hoff.
    apply gate_off_iff in Hoff as (v & Hv & _). congruence.
  - intros Hover. apply not_false_is_true. intros Hoff.
    apply gate_off_iff in Hoff as (v & _ & _ & _ & Ho). congruence.
  - intros v Hv Hne Hl Ho. apply gate_off_iff. now exists v.
Qed.

Lemma gate_disabled_only_by_flag_without_override_witness :
  truthy (should_instrumentation disabled_world) = false /\
  truthy (should_instrumentation enabled_world) = true /\
  truthy (should_instrumentation
            (world_of [(OTLP_INSTRUMENTATION_DISABLE, "true")]
               [(OVERRIDE_KEY, VBool true)])) = true.
Proof.
  split; [|split].
  - apply (proj2 (proj2 (proj2
      (gate_disabled_only_by_flag_without_override disabled_world))) "true").
    + reflexivity.
    + discriminate.
    + discriminate.
    + reflexivity.
  - apply (proj1 (proj2 (gate_disabled_only_by_flag_without_override enabled_world))).
    reflexivity.
  - apply (proj1 (proj2 (proj2
      (gate_disabled_only_by_flag_without_override
         (world_of [(OTLP_INSTRUMENTATION_DISABLE, "true")]
            [(OVERRIDE_KEY, VBool true)]))))).
    reflexivity.
Defined.

(** ** Emitters *)

Lemma set_tracing_same (w : World) :
  set_tracing w (current_span w) (sdk_log w) = w.
Proof. now destruct w. Qed.

Lemma for_each_set_attribute (sp : nat) (d : Dict PyValue) (keys : list string) :
  forall w,
    for_each keys
      (fun att =>
         match dict_get att d with
         | Some v => set_attribute sp att v
         | None => ret tt
         end) w =
    (Return tt,
     set_tracing w (current_span w)
       (sdk_log w ++
        flat_map
          (fun att =>
             match dict_get att d with
             | Some v => [OpSetAttribute sp att v]
             | None => []
             end) keys)).
Proof.
  induction keys as [|k keys IH]; intros w; simpl.
  - unfold ret. now rewrite app_nil_r, set_tracing_same.
  - unfold bind at 1.
    destruct (dict_get k d) as [v|]; simpl.
    + unfold set_attribute at 1. rewrite IH. unfold emit, set_tracing; simpl.
      now rewrite <- app_assoc.
    + unfold ret at 1. now rewrite IH.
Qed.

Lemma set_attributes_run (sp : nat) (d : Dict PyValue) (w : World) :
  _set_attributes sp d w =
  (Return tt, set_tracing w (current_span w) (sdk_log w ++ attribute_ops sp d)).
Proof.
  unfold _set_attributes, attribute_ops. destruct d as [|item d].
  - unfold ret; simpl. now rewrite app_nil_r, set_tracing_same.
  - apply for_each_set_attribute.
Qed.

(** What the [with] statement over the SDK's span does around its block. *)
Lemma with_span_run (tracer name : string) (record_exception : bool) (kind : SpanKind)
    (block : nat -> M PyValue) (w : World) :
  py_with (start_as_current_span tracer name record_exception kind) block w =
  let id := List.length (sdk_log w) in
  match block id
          (set_tracing w (Some id)
             (sdk_log w ++ [OpStartSpan id tracer name kind record_exception])) with
  | (Return v, w2) =>
      (Return v, set_tracing w2 (current_span w) (sdk_log w2 ++ [] ++ [OpEndSpan id]))
  | (Raise e, w2) =>
      (Raise e,
       set_tracing w2 (current_span w)
         (sdk_log w2 ++
          (if record_exception then [OpRecordException id e] else []) ++
          [OpEndSpan id]))
  end.
Proof.
  unfold py_with, start_as_current_span; simpl.
  destruct (block _ _) as [[v|e] w2]; reflexivity.
Qed.

Example event_dropped_without_span :
  span_event echo_who "hello" [("k", VInt 1)] [] [("who", VStr "x")] enabled_world =
  (Return (VStr "x"), enabled_world).
Proof. reflexivity. Qed.

Example event_added_to_active_span :
  span_event echo_who "hello" [("k", VInt 1)] [] [("who", VStr "x")]
    (mkWorld [] [] (Some 4) []) =
  (Return (VStr "x"), mkWorld [] [] (Some 4) [OpAddEvent 4 "hello" [("k", VInt 1)]]).
Proof. reflexivity. Qed.

Example span_records_and_closes :
  span raising_function "app.jobs" "job" [("k", VInt 1)] SPAN_KIND_SERVER true [] []
    (mkWorld [] [] (Some 9) []) =
  (Raise (Raised "ValueError"),
   mkWorld [] [] (Some 9)
     [OpStartSpan 0 "app.jobs" "job" SPAN_KIND_SERVER true;
      OpSetAttribute 0 "k" (VInt 1);
      OpRecordException 0 (Raised "ValueError");
      OpEndSpan 0]).
Proof. reflexivity. Qed.

Example span_closes_without_recording :
  async_span raising_function "app.jobs" false "job" [] SPAN_KIND_INTERNAL [] []
    enabled_world =
  (Raise (Raised "ValueError"),
   mkWorld [] [] None
     [OpStartSpan 0 "app.jobs" "job" SPAN_KIND_INTERNAL false; OpEndSpan 0]).
Proof. reflexivity. Qed.

(** C7. An event emitter, sync or async, entered while no span is
    active adds no event and raises nothing of its own: it is the call of the
    wrapped function, with that call's result.  Entered while a span is
    active, it first adds the named event with the derived attributes to
    that span and then calls the wrapped function.  The keywords are those
    an emitter can be entered with: none has the name of one of its
    positional parameters. *)
Theorem event_emitters_add_event_only_on_active_span (func : Func) (name : string)
    (span_attributes : Dict PyValue) (args : list PyValue) (kwargs : Dict PyValue)
    (w : World) :
  clashes span_event_params kwargs = false ->
  (current_span w = None ->
   span_event func name span_attributes args kwargs w = body func args kwargs w /\
   async_span_event func name span_attributes args kwargs w =
   body func args kwargs w) /\
  (forall sp, current_span w = Some sp ->
   span_event func name span_attributes args kwargs w =
   body func args kwargs (emit (OpAddEvent sp name span_attributes) w) /\
   async_span_event func name span_attributes args kwargs w =
   body func args kwargs (emit (OpAddEvent sp name span_attributes) w)).
Proof.
  intros _.
  unfold span_event, async_span_event, await, bind, get_current_span.
  split.
  - intros Hnone. rewrite Hnone. simpl. split; reflexivity.
  - intros sp Hsome. rewrite Hsome. simpl. split; reflexivity.
Qed.

Lemma event_emitters_add_event_only_on_active_span_witness :
  span_event echo_who "hello" [] [] [("who", VStr "x")] enabled_world =
  (Return (VStr "x"), enabled_world) /\
  async_span_event echo_who_async "hello" [] [] [("who", VStr "x")]
    (mkWorld [] [] (Some 2) []) =
  (Return (VStr "x"), mkWorld [] [] (Some 2) [OpAddEvent 2 "hello" []]).
Proof.
  split.
  - apply (proj1 (event_emitters_add_event_only_on_active_span echo_who "hello" []
                    [] [("who", VStr "x")] enabled_world eq_refl)).
    reflexivity.
  - apply (proj2 (event_emitters_add_event_only_on_active_span echo_who_async
                    "hello" [] [] [("who", VStr "x")] (mkWorld [] [] (Some 2) [])
                    eq_refl)
             2 eq_refl).
Defined.

(** C8. A trace emitter, sync or async, starts a span, sets the
    attributes on it and calls the wrapped function; whatever that call
    returns or raises is what the emitter returns or raises; an exception
    is recorded on the span when [record_exception] is true; and the span is
    ended, and the former active span put back, on both ways out. *)
Theorem trace_emitters_propagate_and_close (func : Func) (tracer name : string)
    (span_attributes : Dict PyValue) (kind : SpanKind) (record_exception : bool)
    (args : list PyValue) (kwargs : Dict PyValue) (w : World) :
  let id := List.length (sdk_log w) in
  let inside :=
    set_tracing w (Some id)
      (sdk_log w ++
       OpStartSpan id tracer name kind record_exception ::
       attribute_ops id span_attributes) in
  let result := fst (body func args kwargs inside) in
  let after := snd (body func args kwargs inside) in
  let recorded :=
    match result with
    | Raise e => if record_exception then [OpRecordException id e] else []
    | Return _ => []
    end in
  let closed :=
    set_tracing after (current_span w) (sdk_log after ++ recorded ++ [OpEndSpan id]) in
  span func tracer name span_attributes kind record_exception args kwargs w =
  (result, closed) /\
  async_span func tracer record_exception name span_attributes kind args kwargs w =
  (result, closed).
Proof.
  intros id inside result after recorded closed.
  assert (Hblock :
    (_set_attributes id span_attributes ;;; body func args kwargs)
      (set_tracing w (Some id)
         (sdk_log w ++ [OpStartSpan id tracer name kind record_exception])) =
    (result, after)).
  { unfold bind. rewrite set_attributes_run.
    unfold result, after, inside, set_tracing; simpl. rewrite <- app_assoc; simpl.
    now destruct (body func args kwargs _). }
  unfold span, async_span, await.
  rewrite !with_span_run. cbv zeta. fold id. rewrite Hblock.
  unfold closed, recorded. destruct result; split; reflexivity.
Qed.

(** ** Keyword binding and dispatch *)

Lemma bind_keywords_ok (callee : string) (params : list string) (kwargs : Dict PyValue) :
  clashes params kwargs = false -> bind_keywords callee params kwargs = ret tt.
Proof.
  unfold bind_keywords, clashes. intros Hno.
  destruct (find _ kwargs) as [[k v]|] eqn:Hfind; [|reflexivity].
  apply find_some in Hfind as [Hin Hk].
  assert (Hex : existsb (fun kv => existsb (String.eqb (fst kv)) params) kwargs = true).
  { apply existsb_exists. now exists (k, v). }
  congruence.
Qed.

Lemma clashes_same_names (p1 p2 : list string) (kwargs : Dict PyValue) :
  (forall k, existsb (String.eqb k) p1 = existsb (String.eqb k) p2) ->
  clashes p1 kwargs = clashes p2 kwargs.
Proof.
  intros Hsame. unfold clashes.
  induction kwargs as [|[k v] kwargs IH]; simpl; [reflexivity|].
  now rewrite IH, Hsame.
Qed.

Lemma eq_str_literal_true (v : PyValue) (lit : string) :
  eq_str_literal v lit = true <-> v = VStr lit.
Proof.
  destruct v; simpl; try (split; [discriminate | intros H; discriminate H]).
  rewrite String.eqb_eq. split; [now intros -> | now intros [= ->]].
Qed.

Lemma eq_str_literal_false (v : PyValue) (lit : string) :
  v <> VStr lit -> eq_str_literal v lit = false.
Proof.
  intros Hne. apply not_true_is_false. intros H.
  now apply eq_str_literal_true in H.
Qed.

Example misspelled_type_traces :
  call (span_decorator (with_type default_options (VStr "Event")) top_level_function)
    [] [] (mkWorld [] [] (Some 3) []) =
  (Return VNone,
   mkWorld [] [] (Some 3)
     [OpStartSpan 0 "app.jobs" "span.no_name" SPAN_KIND_INTERNAL true;
      OpSetAttribute 0 "module" (VStr "app.jobs");
      OpSetAttribute 0 "method" (VStr "refresh");
      OpEndSpan 0]).
Proof. reflexivity. Qed.

Example event_type_adds_event :
  call (span_decorator (with_type default_options (VStr "event")) top_level_function)
    [] [] (mkWorld [] [] (Some 3) []) =
  (Return VNone,
   mkWorld [] [] (Some 3)
     [OpAddEvent 3 "span.no_name"
        [("module", VStr "app.jobs"); ("method", VStr "refresh")]]).
Proof. reflexivity. Qed.

(** C10. Any [type] other than the string ['event'] (a misspelling,
    another string, a value of another type) makes both wrappers behave as
    with ['trace']: when the keywords bind, the call is the trace emitter's,
    which starts a new span. *)
Theorem type_other_than_event_runs_trace_emitter (o : Options) (func : Func)
    (tracer : string) (args : list PyValue) (kwargs : Dict PyValue) (w : World) :
  opt_type o <> VStr "event" ->
  (wrap_with_span_sync o func tracer args kwargs w =
   wrap_with_span_sync (with_type o (VStr "trace")) func tracer args kwargs w /\
   wrap_with_span_async o func tracer args kwargs w =
   wrap_with_span_async (with_type o (VStr "trace")) func tracer args kwargs w) /\
  (clashes function_attributes_params kwargs = false ->
   clashes span_params kwargs = false ->
   let name := wrapper_name o func in
   let span_attributes :=
     function_attributes func (opt_attributes o) (opt_span_parameters o) kwargs in
   wrap_with_span_sync o func tracer args kwargs w =
   span func tracer name span_attributes (opt_kind o) (opt_record_exception o)
     args kwargs w /\
   wrap_with_span_async o func tracer args kwargs w =
   async_span func tracer (opt_record_exception o) name span_attributes (opt_kind o)
     args kwargs w).
Proof.
  intros Htype. apply eq_str_literal_false in Htype.
  unfold wrap_with_span_sync, wrap_with_span_async, INSTRUMENTS_EVENT.
  rewrite Htype. split.
  - split; reflexivity.
  - intros Hfa Hspan. cbv zeta.
    assert (Hasync : clashes async_span_params kwargs = false).
    { rewrite <- Hspan. apply clashes_same_names. intros k. simpl.
      destruct (String.eqb k "func"), (String.eqb k "tracer"),
        (String.eqb k "record_exception"), (String.eqb k "name"),
        (String.eqb k "span_attributes"), (String.eqb k "kind"); reflexivity. }
    unfold wrapper_attributes, await.
    fold function_attributes_params.
    rewrite !bind_keywords_ok by assumption.
    split; reflexivity.
Qed.

Lemma type_other_than_event_runs_trace_emitter_witness :
  wrap_with_span_sync (with_type default_options (VStr "Event")) top_level_function
    "app.jobs" [] [] enabled_world =
  span top_level_function "app.jobs" "span.no_name"
    [("module", VStr "app.jobs"); ("method", VStr "refresh")] SPAN_KIND_INTERNAL true
    [] [] enabled_world.
Proof.
  assert (Hne : opt_type (with_type default_options (VStr "Event")) <> VStr "event")
    by discriminate.
  exact (proj1 (proj2 (type_other_than_event_runs_trace_emitter
                         (with_type default_options (VStr "Event"))
                         top_level_function "app.jobs" [] [] enabled_world Hne)
                  eq_refl eq_refl)).
Defined.

(** ** The decorator and the gate *)

Section AmbientBlind.

Lemma blind_ret {A} (a : A) : ambient_blind (ret a).
Proof. intros env ctx w. reflexivity. Qed.

Lemma blind_raise {A} (e : Exn) : ambient_blind (@raise A e).
Proof. intros env ctx w. reflexivity. Qed.

Lemma blind_bind {A B} (m : M A) (k : A -> M B) :
  ambient_blind m -> (forall a, ambient_blind (k a)) -> ambient_blind (bind m k).
Proof.
  intros Hm Hk env ctx w. unfold bind. rewrite Hm.
  destruct (m w) as [[a|e] w']; simpl; [apply Hk | reflexivity].
Qed.

Lemma blind_get_current_span : ambient_blind get_current_span.
Proof. intros env ctx w. reflexivity. Qed.

Lemma blind_add_event (sp : SpanRef) (name : string) (attributes : Dict PyValue) :
  ambient_blind (add_event sp name attributes).
Proof. destruct sp; intros env ctx w; reflexivity. Qed.

Lemma blind_set_attributes (sp : nat) (d : Dict PyValue) :
  ambient_blind (_set_attributes sp d).
Proof. intros env ctx w. rewrite !set_attributes_run. reflexivity. Qed.

Lemma blind_bind_keywords (callee : string) (params : list string)
    (kwargs : Dict PyValue) :
  ambient_blind (bind_keywords callee params kwargs).
Proof.
  unfold bind_keywords. destruct (find _ kwargs) as [[k v]|].
  - apply blind_raise.
  - apply blind_ret.
Qed.

Lemma blind_with_span (tracer name : string) (record_exception : bool)
    (kind : SpanKind) (block : nat -> M PyValue) :
  (forall sp, ambient_blind (block sp)) ->
  ambient_blind (py_with (start_as_current_span tracer name record_exception kind) block).
Proof.
  intros Hblock env ctx w. rewrite !with_span_run. cbv zeta.
  change (sdk_log (with_ambient env ctx w)) with (sdk_log w).
  change (current_span (with_ambient env ctx w)) with (current_span w).
  set (id := List.length (sdk_log w)).
  set (started := sdk_log w ++ [OpStartSpan id tracer name kind record_exception]).
  change (set_tracing (with_ambient env ctx w) (Some id) started)
    with (with_ambient env ctx (set_tracing w (Some id) started)).
  rewrite Hblock.
  destruct (block id (set_tracing w (Some id) started)) as [[v|e] w2]; reflexivity.
Qed.

Variable func : Func.
Hypothesis blind_body : forall args kwargs, ambient_blind (body func args kwargs).

Lemma blind_wrap_sync (o : Options) (tracer : string) (args : list PyValue)
    (kwargs : Dict PyValue) :
  ambient_blind (wrap_with_span_sync o func tracer args kwargs).
Proof.
  unfold wrap_with_span_sync, wrapper_attributes.
  apply blind_bind.
  - apply blind_bind; [apply blind_bind_keywords | intros; apply blind_ret].
  - intros span_attributes. destruct (eq_str_literal _ _).
    + apply blind_bind; [apply blind_bind_keywords|]. intros _.
      unfold span_event. apply blind_bind; [apply blind_get_current_span|].
      intros [sp|]; (apply blind_bind; [|intros; apply blind_body]).
      * apply blind_add_event.
      * apply blind_ret.
    + apply blind_bind; [apply blind_bind_keywords|]. intros _.
      unfold span. apply blind_with_span. intros sp.
      apply blind_bind; [apply blind_set_attributes | intros; apply blind_body].
Qed.

Lemma blind_wrap_async (o : Options) (tracer : string) (args : list PyValue)
    (kwargs : Dict PyValue) :
  ambient_blind (wrap_with_span_async o func tracer args kwargs).
Proof.
  unfold wrap_with_span_async, wrapper_attributes, await.
  apply blind_bind.
  - apply blind_bind; [apply blind_bind_keywords | intros; apply blind_ret].
  - intros span_attributes. destruct (eq_str_literal _ _).
    + apply blind_bind; [apply blind_bind_keywords|]. intros _.
      unfold async_span_event, await.
      apply blind_bind; [apply blind_get_current_span|].
      intros [sp|]; (apply blind_bind; [|intros; apply blind_body]).
      * apply blind_add_event.
      * apply blind_ret.
    + apply blind_bind; [apply blind_bind_keywords|]. intros _.
      unfold async_span, await. apply blind_with_span. intros sp.
      apply blind_bind; [apply blind_set_attributes | intros; apply blind_body].
Qed.

Lemma blind_call_decorated (o : Options) (args : list PyValue) (kwargs : Dict PyValue) :
  ambient_blind (call (span_decorator o func) args kwargs).
Proof.
  unfold span_decorator. destruct (iscoroutinefunction func); simpl.
  - apply blind_wrap_async.
  - apply blind_wrap_sync.
Qed.

End AmbientBlind.

(** C5 does not hold as stated: the gate is not read at the call.  A
    function decorated while the gate was on is traced in a call made with
    the gate off, and one decorated while the gate was off is not traced in a
    call made with the gate on. *)
Lemma gate_not_read_at_call :
  truthy (should_instrumentation enabled_world) = true /\
  truthy (should_instrumentation disabled_world) = false /\
  (exists c,
     instrumented_trace (Some top_level_function) default_options enabled_world =
     IsCallable c /\
     call c [] [] disabled_world =
     (Return VNone,
      mkWorld (environ disabled_world) [] None traced_refresh_log)) /\
  (exists c,
     instrumented_trace (Some top_level_function) default_options disabled_world =
     IsCallable c /\
     call c [] [] enabled_world = (Return VNone, enabled_world)).
Proof.
  split; [reflexivity|]. split; [reflexivity|]. split.
  - exists (WrapSync default_options top_level_function "app.jobs").
    split; reflexivity.
  - exists (Original top_level_function). split; reflexivity.
Qed.

(** C5, as the code has it. The gate is read once, when the decorator is
    applied: it decides then between the original function and the wrapper,
    in either call shape, and a call of what was decided reads neither the
    environment flag nor the override (for a function that itself does
    not). *)
Theorem gate_read_when_decorating (func : Func) (o : Options) (w_wrap : World) :
  (forall args kwargs, ambient_blind (body func args kwargs)) ->
  let decided :=
    if truthy (should_instrumentation w_wrap) then span_decorator o func
    else Original func in
  instrumented_trace (Some func) o w_wrap = IsCallable decided /\
  (exists d, instrumented_trace None o w_wrap = IsDecorator d /\
             apply_decorator d func = decided) /\
  forall args kwargs env ctx w_call,
    call decided args kwargs (with_ambient env ctx w_call) =
    (fst (call decided args kwargs w_call),
     with_ambient env ctx (snd (call decided args kwargs w_call))).
Proof.
  intros Hbody decided. subst decided. unfold instrumented_trace.
  destruct (truthy (should_instrumentation w_wrap)); simpl.
  - split; [reflexivity|]. split.
    + exists (SpanDecorator o). split; reflexivity.
    + intros args kwargs. apply (blind_call_decorated func Hbody).
  - split; [reflexivity|]. split.
    + exists IdentityDecorator. split; reflexivity.
    + intros args kwargs. apply Hbody.
Qed.

Lemma top_level_function_blind :
  forall args kwargs, ambient_blind (body top_level_function args kwargs).
Proof. intros args kwargs env ctx w. reflexivity. Defined.

Lemma gate_read_when_decorating_witness :
  instrumented_trace (Some top_level_function) default_options enabled_world =
  IsCallable (WrapSync default_options top_level_function "app.jobs") /\
  call (WrapSync default_options top_level_function "app.jobs") [] []
    (with_ambient (environ disabled_world) [] enabled_world) =
  (Return VNone, mkWorld (environ disabled_world) [] None traced_refresh_log).
Proof.
  pose proof (gate_read_when_decorating top_level_function default_options
                enabled_world top_level_function_blind) as (Hbare & _ & Hcall).
  split.
  - exact Hbare.
  - exact (Hcall [] [] (environ disabled_world) [] enabled_world).
Defined.

(** C6. With the gate off when the decorator is applied, the
    decorator gives back the function it was given, as a bare decorator and
    as a decorator factory alike, so that a later call is the function's own
    call and reaches the SDK only as far as the function itself does. *)
Theorem gate_off_returns_original (func : Func) (o : Options) (w : World) :
  truthy (should_instrumentation w) = false ->
  instrumented_trace (Some func) o w = IsCallable (Original func) /\
  instrumented_trace None o w = IsDecorator IdentityDecorator /\
  apply_decorator IdentityDecorator func = Original func /\
  forall args kwargs w_call,
    call (Original func) args kwargs w_call = body func args kwargs w_call.
Proof.
  intros Hoff. unfold instrumented_trace. rewrite Hoff. simpl.
  repeat split; reflexivity.
Qed.

Lemma gate_off_returns_original_witness :
  instrumented_trace (Some echo_name) default_options disabled_world =
  IsCallable (Original echo_name) /\
  instrumented_trace None (with_type default_options (VStr "event")) disabled_world =
  IsDecorator IdentityDecorator.
Proof.
  split.
  - apply (gate_off_returns_original echo_name default_options disabled_world).
    reflexivity.
  - apply (gate_off_returns_original echo_name
             (with_type default_options (VStr "event")) disabled_world).
    reflexivity.
Defined.

(** ** Wrapper selection and the wrapped result *)

Lemma wrapper_selected_by_coroutine_flag (o : Options) (func : Func) :
  span_decorator o func =
  if iscoroutinefunction func then WrapAsync o func (__module__ func)
  else WrapSync o func (__module__ func).
Proof. reflexivity. Qed.

(** When no keyword has the name of a parameter of the helper it is passed
    through, the wrapped call is the emitter's. *)
Lemma wrapped_call_without_clash (o : Options) (func : Func)
    (args : list PyValue) (kwargs : Dict PyValue) :
  clashes function_attributes_params kwargs = false ->
  clashes span_event_params kwargs = false ->
  clashes span_params kwargs = false ->
  let name := wrapper_name o func in
  let span_attributes :=
    function_attributes func (opt_attributes o) (opt_span_parameters o) kwargs in
  call (span_decorator o func) args kwargs =
  if eq_str_literal (opt_type o) "event"
  then span_event func name span_attributes args kwargs
  else span func (__module__ func) name span_attributes (opt_kind o)
         (opt_record_exception o) args kwargs.
Proof.
  intros Hfa Hevent Hspan. cbv zeta.
  assert (Hasync : clashes async_span_params kwargs = false).
  { rewrite <- Hspan. apply clashes_same_names. intros k. simpl.
    destruct (String.eqb k "func"), (String.eqb k "tracer"),
      (String.eqb k "record_exception"), (String.eqb k "name"),
      (String.eqb k "span_attributes"), (String.eqb k "kind"); reflexivity. }
  unfold span_decorator.
  destruct (iscoroutinefunction func); simpl;
    unfold wrap_with_span_sync, wrap_with_span_async, wrapper_attributes, await,
      INSTRUMENTS_EVENT;
    fold function_attributes_params;
    rewrite !bind_keywords_ok by assumption;
    destruct (eq_str_literal (opt_type o) "event"); reflexivity.
Qed.

(** C9, at the input where it fails. A function with a parameter [name],
    called with [name='x']: on its own it returns ['x']; behind the decorator,
    in any mode, sync or async, the call raises the [TypeError] of a
    parameter given twice, and the function is never run. *)
Theorem keyword_named_as_emitter_parameter_is_rejected :
  let kwargs := [("name", VStr "x")] in
  body echo_name [] kwargs enabled_world = (Return (VStr "x"), enabled_world) /\
  instrumented_trace (Some echo_name) default_options enabled_world =
  IsCallable (WrapSync default_options echo_name "app.greet") /\
  call (WrapSync default_options echo_name "app.greet") [] kwargs enabled_world =
  (Raise (MultipleValues "span" "name"), enabled_world) /\
  instrumented_trace (Some echo_name_async) default_options enabled_world =
  IsCallable (WrapAsync default_options echo_name_async "app.greet") /\
  call (WrapAsync default_options echo_name_async "app.greet") [] kwargs enabled_world =
  (Raise (MultipleValues "async_span" "name"), enabled_world) /\
  call (span_decorator (with_type default_options (VStr "event")) echo_name)
    [] kwargs enabled_world =
  (Raise (MultipleValues "span_event" "name"), enabled_world).
Proof. repeat split. Qed.

(** * Further properties of the code *)

(** ** Attributes written to a span *)

Lemma dict_wf_get {V} (d : Dict V) (k : string) (v : V) :
  dict_wf d -> In (k, v) d -> dict_get k d = Some v.
Proof.
  unfold dict_wf. induction d as [|[k0 v0] d IH]; simpl; intros Hwf Hin; [contradiction|].
  inversion Hwf as [|? ? Hnotin Hwf']; subst.
  destruct Hin as [Heq|Hin].
  - inversion Heq; subst. now rewrite String.eqb_refl.
  - destruct (String.eqb k0 k) eqn:E.
    + apply String.eqb_eq in E; subst k0. exfalso. apply Hnotin.
      unfold dict_keys. change k with (fst (k, v)). now apply in_map.
    + now apply IH.
Qed.

Lemma attribute_ops_entries (sp : nat) (d : Dict PyValue) :
  dict_wf d ->
  attribute_ops sp d = map (fun kv => OpSetAttribute sp (fst kv) (snd kv)) d.
Proof.
  intros Hwf. unfold attribute_ops, dict_keys.
  assert (Hall : forall l, incl l d ->
    flat_map
      (fun att =>
         match dict_get att d with
         | Some v => [OpSetAttribute sp att v]
         | None => []
         end) (map fst l) =
    map (fun kv => OpSetAttribute sp (fst kv) (snd kv)) l).
  { induction l as [|[k v] l IH]; simpl; intros Hincl; [reflexivity|].
    rewrite (dict_wf_get d k v Hwf) by (apply Hincl; now left).
    simpl. f_equal. apply IH. intros x Hx. apply Hincl. now right. }
  apply Hall, incl_refl.
Qed.

(** X1. [_set_attributes] never raises and leaves the active span alone; for
    a dictionary it makes one [set_attribute] call per entry, in the
    dictionary's order, and for an empty one it makes none. *)
Theorem set_attributes_one_call_per_entry (sp : nat) (d : Dict PyValue) (w : World) :
  dict_wf d ->
  _set_attributes sp d w =
  (Return tt,
   set_tracing w (current_span w)
     (sdk_log w ++ map (fun kv => OpSetAttribute sp (fst kv) (snd kv)) d)) /\
  _set_attributes sp [] w = (Return tt, w).
Proof.
  intros Hwf. split.
  - now rewrite set_attributes_run, attribute_ops_entries.
  - reflexivity.
Qed.

Lemma set_attributes_one_call_per_entry_witness :
  _set_attributes 5 sample_kwargs (mkWorld [] [] (Some 5) []) =
  (Return tt,
   mkWorld [] [] (Some 5) [OpSetAttribute 5 "a" (VInt 1); OpSetAttribute 5 "b" (VStr "x")]).
Proof.
  exact (proj1 (set_attributes_one_call_per_entry 5 sample_kwargs
                  (mkWorld [] [] (Some 5) []) sample_kwargs_wf)).
Defined.

Lemma add_key_nodup (keys : list string) (k : string) :
  NoDup keys -> NoDup (add_key keys k).
Proof.
  intros Hnd. unfold add_key.
  destruct (existsb (String.eqb k) keys) eqn:E; [assumption|].
  apply NoDup_app; [assumption | repeat constructor; simpl; tauto |].
  intros x Hx [Hk|[]]. subst x.
  assert (Hex : existsb (String.eqb k) keys = true).
  { apply existsb_exists. exists k. split; [assumption | apply String.eqb_refl]. }
  congruence.
Qed.

Lemma fold_add_key_nodup (l keys : list string) :
  NoDup keys -> NoDup (fold_left add_key l keys).
Proof.
  revert keys. induction l as [|k l IH]; simpl; intros keys Hnd; [assumption|].
  apply IH, add_key_nodup, Hnd.
Qed.

Lemma fold_add_key_prefix (l keys : list string) :
  exists rest, fold_left add_key l keys = keys ++ rest.
Proof.
  revert keys. induction l as [|k l IH]; simpl; intros keys.
  - exists []. now rewrite app_nil_r.
  - destruct (IH (add_key keys k)) as (rest & Hrest). rewrite Hrest.
    unfold add_key. destruct (existsb (String.eqb k) keys).
    + now exists rest.
    + exists (k :: rest). now rewrite <- app_assoc.
Qed.

(** X2. Whatever the inputs, the derived attributes are a dictionary
    with each key once, whose first two keys are ["module"] and ["method"];
    so it is never empty. *)
Theorem function_attributes_shape (func : Func)
    (user_attributes : option (Dict PyValue)) (span_parameters : bool)
    (kwargs : Dict PyValue) :
  dict_wf (function_attributes func user_attributes span_parameters kwargs) /\
  exists rest,
    dict_keys (function_attributes func user_attributes span_parameters kwargs) =
    "module" :: "method" :: rest.
Proof.
  unfold dict_wf. rewrite function_attributes_keys. split.
  - apply fold_add_key_nodup. repeat constructor; simpl; intuition discriminate.
  - destruct (fold_add_key_prefix
                ((if span_parameters then dict_keys kwargs else []) ++
                 match user_attributes with Some ua => dict_keys ua | None => [] end)
                ["module"; "method"]) as (rest & ->).
    now exists rest.
Qed.

(** ** The default name *)

Lemma contains_dot_no_name : contains "." NO_NAME = true.
Proof. reflexivity. Qed.

(** X3. The default naming scheme gives the fallback token exactly for
    the qualified names without a dot; every other name it gives has no dot
    in it, so the two cases cannot be confused. *)
Theorem fallback_name_iff_no_dot (func : Func) :
  (function_qualified_name func = "span.no_name" <->
   contains "." (__qualname__ func) = false) /\
  (contains "." (__qualname__ func) = true ->
   contains "." (function_qualified_name func) = false).
Proof.
  assert (Hdot : contains "." (__qualname__ func) = true ->
                 contains "." (function_qualified_name func) = false).
  { intros Hq. unfold function_qualified_name. rewrite Hq.
    destruct (contains_decompose "." _ Hq) as (pre & post & Heq & Hpre).
    now rewrite Heq, (split_first_segment "." pre post Hpre). }
  split; [|exact Hdot]. split.
  - intros Hname. apply not_true_is_false. intros Hq.
    apply Hdot in Hq. rewrite Hname in Hq. discriminate.
  - intros Hq. unfold function_qualified_name. now rewrite Hq.
Qed.

Lemma fallback_name_iff_no_dot_witness :
  function_qualified_name top_level_function = "span.no_name" /\
  contains "." (function_qualified_name nested_function) = false.
Proof.
  split.
  - apply (proj2 (proj1 (fallback_name_iff_no_dot top_level_function))). reflexivity.
  - apply (proj2 (fallback_name_iff_no_dot nested_function)). reflexivity.
Defined.

(** ** Keywords the wrapper refuses, and the calls it lets through *)

Lemma bind_keywords_clash (params : list string) (kwargs : Dict PyValue) :
  clashes params kwargs = true ->
  exists k,
    In k (dict_keys kwargs) /\ In k params /\
    forall callee, bind_keywords callee params kwargs = raise (MultipleValues callee k).
Proof.
  unfold clashes, bind_keywords. intros Hclash.
  destruct (find (fun kv => existsb (String.eqb (fst kv)) params) kwargs)
    as [[k v]|] eqn:Hfind.
  - apply find_some in Hfind as [Hin Hk]. simpl in Hk.
    exists k. repeat split.
    + unfold dict_keys. change k with (fst (k, v)). now apply in_map.
    + apply existsb_exists in Hk as (p & Hp & Heq).
      apply String.eqb_eq in Heq. now subst p.
  - apply existsb_exists in Hclash as (kv & Hin & Hkv).
    pose proof (find_none _ _ Hfind kv Hin) as Hnone. simpl in Hnone. congruence.
Qed.

Lemma clashes_async_span_params (kwargs : Dict PyValue) :
  clashes async_span_params kwargs = clashes span_params kwargs.
Proof.
  apply clashes_same_names. intros k. simpl.
  destruct (String.eqb k "func"), (String.eqb k "tracer"),
    (String.eqb k "record_exception"), (String.eqb k "name"),
    (String.eqb k "span_attributes"), (String.eqb k "kind"); reflexivity.
Qed.

(** The wrapped call when the keywords are let through. *)
Lemma wrapped_call_accepted (o : Options) (func : Func)
    (args : list PyValue) (kwargs : Dict PyValue) :
  rejects o kwargs = false ->
  call (span_decorator o func) args kwargs =
  if eq_str_literal (opt_type o) "event"
  then span_event func (wrapper_name o func)
         (function_attributes func (opt_attributes o) (opt_span_parameters o) kwargs)
         args kwargs
  else span func (__module__ func) (wrapper_name o func)
         (function_attributes func (opt_attributes o) (opt_span_parameters o) kwargs)
         (opt_kind o) (opt_record_exception o) args kwargs.
Proof.
  unfold rejects, INSTRUMENTS_EVENT. intros Hacc.
  apply orb_false_iff in Hacc as [Hfa Hemit].
  assert (Hasync : eq_str_literal (opt_type o) "event" = false ->
                   clashes async_span_params kwargs = false).
  { intros Hev. rewrite Hev in Hemit. now rewrite clashes_async_span_params. }
  unfold span_decorator.
  destruct (iscoroutinefunction func); simpl;
    unfold wrap_with_span_sync, wrap_with_span_async, wrapper_attributes, await,
      INSTRUMENTS_EVENT;
    rewrite (bind_keywords_ok _ _ _ Hfa);
    destruct (eq_str_literal (opt_type o) "event");
    rewrite ?(bind_keywords_ok _ _ _ Hemit), ?(bind_keywords_ok _ _ _ (Hasync eq_refl));
    reflexivity.
Qed.

Lemma refused_call (o : Options) (func : Func)
    (args : list PyValue) (kwargs : Dict PyValue) (w : World) :
  rejects o kwargs = true ->
  exists callee k,
    In k (dict_keys kwargs) /\
    call (span_decorator o func) args kwargs w = (Raise (MultipleValues callee k), w).
Proof.
  unfold rejects, INSTRUMENTS_EVENT. intros Hrej.
  destruct (clashes function_attributes_params kwargs) eqn:Hfa.
  - destruct (bind_keywords_clash _ _ Hfa) as (k & Hin & _ & Hraise).
    exists "function_attributes", k. split; [assumption|].
    unfold span_decorator.
    destruct (iscoroutinefunction func); simpl;
      unfold wrap_with_span_sync, wrap_with_span_async, wrapper_attributes;
      rewrite Hraise; reflexivity.
  - simpl in Hrej.
    assert (Hemit : exists k,
      In k (dict_keys kwargs) /\
      forall callee,
        bind_keywords callee
          (if eq_str_literal (opt_type o) "event" then span_event_params
           else if iscoroutinefunction func then async_span_params else span_params)
          kwargs = raise (MultipleValues callee k)).
    { destruct (eq_str_literal (opt_type o) "event").
      - destruct (bind_keywords_clash _ _ Hrej) as (k & Hin & _ & Hraise). now exists k.
      - destruct (iscoroutinefunction func).
        + rewrite <- clashes_async_span_params in Hrej.
          destruct (bind_keywords_clash _ _ Hrej) as (k & Hin & _ & Hraise).
          now exists k.
        + destruct (bind_keywords_clash _ _ Hrej) as (k & Hin & _ & Hraise).
          now exists k. }
    destruct Hemit as (k & Hin & Hraise).
    unfold span_decorator.
    destruct (iscoroutinefunction func); simpl;
      unfold wrap_with_span_sync, wrap_with_span_async, wrapper_attributes, await,
        INSTRUMENTS_EVENT;
      rewrite (bind_keywords_ok _ _ _ Hfa);
      destruct (eq_str_literal (opt_type o) "event");
      eexists _, k; (split; [exact Hin|]);
      cbv [bind ret]; rewrite Hraise; reflexivity.
Qed.






(** ** An event-type call inside a trace-type call *)

(** X6. When a function run by a trace emitter calls an event-type
    decorated function, that function's event is added to the span the
    emitter has just started, after the span's attributes and before the
    function runs; the span is ended afterwards as for any call. *)
Theorem event_inside_span_lands_on_that_span (o_in : Options) (g : Func)
    (tracer name : string) (span_attributes : Dict PyValue) (kind : SpanKind)
    (record_exception : bool) (args : list PyValue) (kwargs : Dict PyValue)
    (w : World) :
  opt_type o_in = VStr "event" ->
  rejects o_in kwargs = false ->
  let id := List.length (sdk_log w) in
  let inside :=
    set_tracing w (Some id)
      (sdk_log w ++
       OpStartSpan id tracer name kind record_exception ::
       attribute_ops id span_attributes) in
  let event :=
    OpAddEvent id (wrapper_name o_in g)
      (function_attributes g (opt_attributes o_in) (opt_span_parameters o_in) kwargs) in
  let result := fst (body g args kwargs (emit event inside)) in
  let after := snd (body g args kwargs (emit event inside)) in
  let recorded :=
    match result with
    | Raise e => if record_exception then [OpRecordException id e] else []
    | Return _ => []
    end in
  span (forwards_to (span_decorator o_in g)) tracer name span_attributes kind
    record_exception args kwargs w =
  (result,
   set_tracing after (current_span w) (sdk_log after ++ recorded ++ [OpEndSpan id])).
Proof.
  intros Htype Hacc id inside event result after recorded.
  assert (Hblock :
    (_set_attributes id span_attributes ;;;
     body (forwards_to (span_decorator o_in g)) args kwargs)
      (set_tracing w (Some id)
         (sdk_log w ++ [OpStartSpan id tracer name kind record_exception])) =
    (result, after)).
  { unfold bind. rewrite set_attributes_run.
    change (body (forwards_to (span_decorator o_in g)) args kwargs)
      with (call (span_decorator o_in g) args kwargs).
    rewrite (wrapped_call_accepted o_in g args kwargs Hacc), Htype. simpl eq_str_literal.
    cbv iota. unfold span_event, bind, get_current_span. simpl current_span.
    unfold add_event.
    unfold result, after, event, inside, emit, set_tracing; simpl.
    rewrite <- !app_assoc; simpl.
    apply surjective_pairing. }
  unfold span. rewrite with_span_run. cbv zeta. fold id. rewrite Hblock.
  unfold recorded. destruct result; reflexivity.
Qed.

Lemma event_inside_span_lands_on_that_span_witness :
  span (forwards_to (span_decorator (with_type default_options (VStr "event"))
                       top_level_function))
    "app.outer" "outer" [] SPAN_KIND_SERVER true [] [] enabled_world =
  (Return VNone,
   mkWorld [] [] None
     [OpStartSpan 0 "app.outer" "outer" SPAN_KIND_SERVER true;
      OpAddEvent 0 "span.no_name"
        [("module", VStr "app.jobs"); ("method", VStr "refresh")];
      OpEndSpan 0]).
Proof.
  exact (event_inside_span_lands_on_that_span
           (with_type default_options (VStr "event")) top_level_function
           "app.outer" "outer" [] SPAN_KIND_SERVER true [] [] enabled_world
           eq_refl eq_refl).
Defined.

(** ** What a decorated call leaves in place *)

Section Respects.

Variable R : World -> World -> Prop.
Hypothesis R_refl : forall w, R w w.
Hypothesis R_trans : forall w1 w2 w3, R w1 w2 -> R w2 w3 -> R w1 w3.
Hypothesis R_tracing :
  forall w cur ops, R w (set_tracing w cur (sdk_log w ++ ops)).

Lemma respects_ret {A} (a : A) : respects R (ret a).
Proof. intros w. apply R_refl. Qed.

Lemma respects_raise {A} (e : Exn) : respects R (@raise A e).
Proof. intros w. apply R_refl. Qed.

Lemma respects_bind {A B} (m : M A) (k : A -> M B) :
  respects R m -> (forall a, respects R (k a)) -> respects R (bind m k).
Proof.
  intros Hm Hk w. unfold bind. specialize (Hm w).
  destruct (m w) as [[a|e] w1]; simpl in *.
  - eapply R_trans; [exact Hm | apply Hk].
  - exact Hm.
Qed.

Lemma respects_bind_keywords (callee : string) (params : list string)
    (kwargs : Dict PyValue) :
  respects R (bind_keywords callee params kwargs).
Proof.
  unfold bind_keywords. destruct (find _ kwargs) as [[k v]|].
  - apply respects_raise.
  - apply respects_ret.
Qed.

Lemma respects_set_attributes (sp : nat) (d : Dict PyValue) :
  respects R (_set_attributes sp d).
Proof. intros w. rewrite set_attributes_run. apply R_tracing. Qed.

Lemma respects_with_span (tracer name : string) (record_exception : bool)
    (kind : SpanKind) (block : nat -> M PyValue) :
  (forall sp, respects R (block sp)) ->
  respects R (py_with (start_as_current_span tracer name record_exception kind) block).
Proof.
  intros Hblock w. rewrite with_span_run. cbv zeta.
  set (id := List.length (sdk_log w)).
  set (w1 := set_tracing w (Some id)
               (sdk_log w ++ [OpStartSpan id tracer name kind record_exception])).
  assert (H1 : R w w1) by apply R_tracing.
  pose proof (Hblock id w1) as H2.
  destruct (block id w1) as [[v|e] w2]; simpl in *.
  - eapply R_trans; [exact H1|]. eapply R_trans; [exact H2|].
    apply (R_tracing w2 (current_span w) ([] ++ [OpEndSpan id])).
  - eapply R_trans; [exact H1|]. eapply R_trans; [exact H2|].
    apply (R_tracing w2 (current_span w)).
Qed.

Variable func : Func.
Hypothesis respects_body : forall args kwargs, respects R (body func args kwargs).

Lemma respects_span_event (name : string) (span_attributes : Dict PyValue)
    (args : list PyValue) (kwargs : Dict PyValue) :
  respects R (span_event func name span_attributes args kwargs).
Proof.
  unfold span_event. apply respects_bind.
  - intros w. apply R_refl.
  - intros [[|id]|]; (apply respects_bind; [|intros; apply respects_body]).
    + apply respects_ret.
    + intros w. apply (R_tracing w (current_span w) [OpAddEvent id name span_attributes]).
    + apply respects_ret.
Qed.

Lemma respects_span (tracer name : string) (span_attributes : Dict PyValue)
    (kind : SpanKind) (record_exception : bool)
    (args : list PyValue) (kwargs : Dict PyValue) :
  respects R (span func tracer name span_attributes kind record_exception args kwargs).
Proof.
  unfold span. apply respects_with_span. intros sp.
  apply respects_bind; [apply respects_set_attributes | intros; apply respects_body].
Qed.

Lemma respects_call_decorated (o : Options) (args : list PyValue)
    (kwargs : Dict PyValue) :
  respects R (call (span_decorator o func) args kwargs).
Proof.
  unfold span_decorator.
  destruct (iscoroutinefunction func); simpl;
    unfold wrap_with_span_sync, wrap_with_span_async, wrapper_attributes, await;
    (apply respects_bind;
     [apply respects_bind; [apply respects_bind_keywords | intros; apply respects_ret]|]);
    intros span_attributes; destruct (eq_str_literal _ _);
    (apply respects_bind; [apply respects_bind_keywords|]); intros _.
  - apply respects_span_event.
  - apply respects_span.
  - apply respects_span_event.
  - apply respects_span.
Qed.

End Respects.

Lemma same_ambient_trans (w1 w2 w3 : World) :
  same_ambient w1 w2 -> same_ambient w2 w3 -> same_ambient w1 w3.
Proof. intros [E1 C1] [E2 C2]. split; congruence. Qed.

(** X8. The decorator layer never writes the environment or the
    propagation context: if the wrapped function leaves them as they are,
    so does every call of the decorated function. *)
Theorem decorated_call_keeps_environment_and_context (o : Options) (func : Func)
    (args : list PyValue) (kwargs : Dict PyValue) :
  (forall args' kwargs', respects same_ambient (body func args' kwargs')) ->
  respects same_ambient (call (span_decorator o func) args kwargs).
Proof.
  intros Hbody. apply respects_call_decorated; trivial.
  - intros w. split; reflexivity.
  - apply same_ambient_trans.
  - intros w cur ops. split; reflexivity.
Qed.

Lemma top_level_function_keeps_ambient :
  forall args kwargs, respects same_ambient (body top_level_function args kwargs).
Proof. intros args kwargs w. split; reflexivity. Defined.

Lemma decorated_call_keeps_environment_and_context_witness :
  same_ambient disabled_world
    (snd (call (span_decorator default_options top_level_function) [] []
            disabled_world)).
Proof.
  exact (decorated_call_keeps_environment_and_context default_options
           top_level_function [] [] top_level_function_keeps_ambient disabled_world).
Defined.

Example leaked_span_is_reset :
  call (span_decorator default_options leaves_span_active) [] []
    (mkWorld [] [] (Some 3) []) =
  (Return VNone,
   mkWorld [] [] (Some 3)
     [OpStartSpan 0 "app.jobs" "span.no_name" SPAN_KIND_INTERNAL true;
      OpSetAttribute 0 "module" (VStr "app.jobs");
      OpSetAttribute 0 "method" (VStr "leak");
      OpEndSpan 0]).
Proof. reflexivity. Qed.

Example leaked_span_stays_in_event_mode :
  current_span
    (snd (call (span_decorator (with_type default_options (VStr "event"))
                  leaves_span_active) [] [] (mkWorld [] [] (Some 3) []))) =
  Some 77.
Proof. reflexivity. Qed.

(** X9. After a trace-type decorated call the active span is the one
    that was active before the call, whatever the wrapped function did to
    it and whether it returned or raised; after an event-type call it is,
    provided the wrapped function itself leaves it so. *)
Theorem decorated_call_restores_active_span (o : Options) (func : Func)
    (args : list PyValue) (kwargs : Dict PyValue) :
  (opt_type o = VStr "event" ->
   forall args' kwargs', respects same_active_span (body func args' kwargs')) ->
  respects same_active_span (call (span_decorator o func) args kwargs).
Proof.
  intros Hbody w. unfold same_active_span.
  destruct (rejects o kwargs) eqn:Hrej.
  - destruct (refused_call o func args kwargs w Hrej) as (callee & k & _ & ->).
    reflexivity.
  - rewrite (wrapped_call_accepted o func args kwargs Hrej).
    destruct (eq_str_literal (opt_type o) "event") eqn:Hev.
    + apply eq_str_literal_true in Hev. specialize (Hbody Hev args kwargs).
      unfold span_event, bind, get_current_span.
      destruct (current_span w) as [sp|] eqn:Hcur; simpl.
      * rewrite (Hbody _). simpl. exact Hcur.
      * rewrite (Hbody _). exact Hcur.
    + unfold span. rewrite with_span_run. cbv zeta.
      destruct ((_ ;;; _) _) as [[v|e] w2]; reflexivity.
Qed.

Lemma decorated_call_restores_active_span_witness :
  same_active_span (mkWorld [] [] (Some 3) [])
    (snd (call (span_decorator default_options leaves_span_active) [] []
            (mkWorld [] [] (Some 3) []))).
Proof.
  apply (decorated_call_restores_active_span default_options leaves_span_active [] []).
  intros Hev. discriminate Hev.
Defined.

(** ** The two call shapes *)

(** X10. Used bare on a function, or called with options first and
    then applied to the function, the decorator builds the same thing, in
    the same world and with the same options. *)
Theorem both_call_shapes_agree (o : Options) (func : Func) (w : World) :
  exists d,
    instrumented_trace None o w = IsDecorator d /\
    instrumented_trace (Some func) o w = IsCallable (apply_decorator d func).
Proof.
  unfold instrumented_trace.
  destruct (negb (truthy (should_instrumentation w))).
  - exists IdentityDecorator. split; reflexivity.
  - exists (SpanDecorator o). split; reflexivity.
Qed.

(** ** Instrumentation *)

Module InstrumentationFacts.
Import Instrumentation.

Example init_full_settings :
  __init__ mapping_and_address_sdk full_settings [] =
  (let provider :=
     mkProvider (mkResource [("service.name", VStr "billing")])
       [mkExporter "collector:4317" true] in
   (inr (mkSelf (ArgValue (VBool true)) (ArgDict [("service.name", VStr "billing")])
           (ArgValue (VStr "collector:4317")) (Some provider)),
    [provider])).
Proof. reflexivity. Qed.

Example init_without_url :
  __init__ mapping_and_address_sdk
    [("grpc", ArgValue (VBool false)); ("resource_attributes_dict", ArgDict [])] [] =
  (inl (KeyError "traces_exporter_url"), []).
Proof. reflexivity. Qed.

Example init_without_grpc_needs_no_address :
  __init__ mapping_and_address_sdk
    [("grpc", ArgValue (VBool false)); ("resource_attributes_dict", ArgDict []);
     ("traces_exporter_url", ArgValue VNone)] [] =
  (inr (mkSelf (ArgValue (VBool false)) (ArgDict []) (ArgValue VNone)
          (Some (mkProvider (mkResource []) []))),
   [mkProvider (mkResource []) []]).
Proof. reflexivity. Qed.

Example init_refused_attributes :
  __init__ mapping_and_address_sdk
    [("grpc", ArgValue (VBool true)); ("resource_attributes_dict", ArgValue (VInt 5));
     ("traces_exporter_url", ArgValue (VStr "collector:4317"))] [] =
  (inl (SdkError "Resource.create"), []).
Proof. reflexivity. Qed.

(** X11. A constructor call that lacks one of the three settings raises
    [KeyError] for the first one missing, in the order [grpc],
    [resource_attributes_dict], [traces_exporter_url], and registers no
    provider. *)
Theorem init_missing_setting (sdk : Sdk) (kwargs : Dict Arg)
    (registered : Registered) :
  dict_get "self" kwargs = None ->
  dict_get "grpc" kwargs = None \/
  dict_get "resource_attributes_dict" kwargs = None \/
  dict_get "traces_exporter_url" kwargs = None ->
  __init__ sdk kwargs registered =
  (inl (KeyError
          (match dict_get "grpc" kwargs, dict_get "resource_attributes_dict" kwargs with
           | None, _ => "grpc"
           | Some _, None => "resource_attributes_dict"
           | Some _, Some _ => "traces_exporter_url"
           end)),
   registered).
Proof.
  intros Hself Hmiss. unfold __init__. rewrite Hself.
  destruct (dict_get "grpc" kwargs) as [g|]; [|reflexivity].
  destruct (dict_get "resource_attributes_dict" kwargs) as [r|]; [|reflexivity].
  destruct (dict_get "traces_exporter_url" kwargs) as [u|]; [|reflexivity].
  destruct Hmiss as [H|[H|H]]; discriminate H.
Qed.

Lemma init_missing_setting_witness :
  __init__ mapping_and_address_sdk
    [("grpc", ArgValue (VInt 1)); ("traces_exporter_url", ArgValue (VStr "x"))] [] =
  (inl (KeyError "resource_attributes_dict"), []).
Proof.
  apply (init_missing_setting mapping_and_address_sdk
           [("grpc", ArgValue (VInt 1)); ("traces_exporter_url", ArgValue (VStr "x"))] []).
  - reflexivity.
  - right. left. reflexivity.
Defined.

(** X12. A constructor call with the three settings (other keywords are
    ignored), whose resource attributes the SDK accepts and, when [grpc] is
    true, whose address it accepts too, registers exactly one provider, the
    one [get_provider] then returns: it is built on the resource made from
    the given attributes and has, when [grpc] is true, the one exporter made
    for the given address with [insecure] set, and no exporter when [grpc]
    is false. *)
Theorem init_registers_the_provider (sdk : Sdk) (kwargs : Dict Arg)
    (registered : Registered) (g r u : Arg) (res : Resource)
    (exporter : OTLPSpanExporter) :
  dict_get "self" kwargs = None ->
  dict_get "grpc" kwargs = Some g ->
  dict_get "resource_attributes_dict" kwargs = Some r ->
  dict_get "traces_exporter_url" kwargs = Some u ->
  Resource_create sdk r = inr res ->
  (arg_truthy g = true -> OTLPSpanExporter_new sdk u true = inr exporter) ->
  let provider := mkProvider res (if arg_truthy g then [exporter] else []) in
  exists self,
    __init__ sdk kwargs registered = (inr self, registered ++ [provider]) /\
    get_provider self = Some provider /\
    grpc self = g /\ resource_attributes_dict self = r /\ traces_exporter_url self = u.
Proof.
  intros Hself Hg Hr Hu Hres Hexp provider. subst provider.
  unfold __init__. rewrite Hself, Hg, Hr, Hu. unfold setting_otlp.
  cbn [resource_attributes_dict grpc traces_exporter_url]. rewrite Hres.
  destruct (arg_truthy g).
  - rewrite (Hexp eq_refl). eexists. split; [reflexivity|]. repeat split.
  - eexists. split; [reflexivity|]. repeat split.
Qed.

Lemma init_registers_the_provider_witness :
  let provider :=
    mkProvider (mkResource [("service.name", VStr "billing")])
      (if arg_truthy (ArgValue (VBool true))
       then [mkExporter "collector:4317" true] else []) in
  exists self,
    __init__ mapping_and_address_sdk full_settings [] = (inr self, [] ++ [provider]) /\
    get_provider self = Some provider /\
    grpc self = ArgValue (VBool true) /\
    resource_attributes_dict self = ArgDict [("service.name", VStr "billing")] /\
    traces_exporter_url self = ArgValue (VStr "collector:4317").
Proof.
  apply (init_registers_the_provider mapping_and_address_sdk full_settings []
           (ArgValue (VBool true)) (ArgDict [("service.name", VStr "billing")])
           (ArgValue (VStr "collector:4317"))
           (mkResource [("service.name", VStr "billing")])
           (mkExporter "collector:4317" true)); reflexivity.
Defined.

End InstrumentationFacts.
